(** * rtt_monitor: the RTT log interpreter of the embedded test framework

    A shallow embedding of [scripts/rtt_monitor.py]: the marker parser
    [RTTMonitor.parse_rtt_line], the success evaluator
    [RTTMonitor.check_success_condition] and the report builder
    [RTTMonitor.save_results], together with the pieces of Python they
    rest on (string stripping, the [re] patterns, integer and float
    arithmetic).

    Text is modelled as ASCII strings: [\w], [\d] and white space are the
    ASCII classes. *)

From Stdlib Require Import ZArith SpecFloat String Ascii.
From stdpp Require Import gmap strings list fin_maps pretty.

Local Open Scope string_scope.

(** ** Characters and string helpers *)

Module Str.

Definition code (c : ascii) : N := N_of_ascii c.

Definition between (lo hi : N) (c : ascii) : bool :=
  ((lo <=? code c) && (code c <=? hi))%N.

(** [\d] *)
Definition is_digit (c : ascii) : bool := between 48 57 c.

(** [\w]: letters, digits and the underscore. *)
Definition is_word (c : ascii) : bool :=
  between 97 122 c || between 65 90 c || is_digit c || (code c =? 95)%N.

(** [.] without DOTALL: anything but a line feed. *)
Definition is_dot (c : ascii) : bool := negb (code c =? 10)%N.

(** The characters [str.strip()] removes: tab, line feed, vertical tab,
    form feed, carriage return, the four separators 0x1c-0x1f, space. *)
Definition is_space (c : ascii) : bool := between 9 13 c || between 28 32 c.

Fixpoint all (f : ascii -> bool) (s : string) : bool :=
  match s with
  | EmptyString => true
  | String c s' => f c && all f s'
  end.

Definition is_empty (s : string) : bool :=
  match s with EmptyString => true | String _ _ => false end.

Fixpoint lstrip (s : string) : string :=
  match s with
  | EmptyString => EmptyString
  | String c s' => if is_space c then lstrip s' else s
  end.

Fixpoint rstrip (s : string) : string :=
  match s with
  | EmptyString => EmptyString
  | String c s' =>
      let r := rstrip s' in
      if is_space c && is_empty r then EmptyString else String c r
  end.

(** [str.strip()] *)
Definition strip (s : string) : string := rstrip (lstrip s).

(** [strip_prefix p s] is what is left of [s] after the literal [p]. *)
Fixpoint strip_prefix (p s : string) : option string :=
  match p with
  | EmptyString => Some s
  | String a p' =>
      match s with
      | EmptyString => None
      | String b s' => if Ascii.eqb a b then strip_prefix p' s' else None
      end
  end.

(** The part of [s] in front of its suffix [rest]. *)
Definition consumed (s rest : string) : string :=
  String.substring 0 (String.length s - String.length rest) s.

End Str.

(** ** The fragment of Python's [re] the monitor uses

    Literals, greedy [+] over a character class, alternation,
    concatenation and capturing groups (never nested in the patterns of
    the monitor, so groups are numbered in the order they close).  The
    matcher is the backtracking one: a quantifier first takes all it can
    and gives characters back one at a time, an alternation tries its left
    branch first, and [search] tries the start positions from the left. *)

Module Re.

Inductive charset := Word | Digit | AnyChar.

Definition mem (cs : charset) : ascii -> bool :=
  match cs with
  | Word => Str.is_word
  | Digit => Str.is_digit
  | AnyChar => Str.is_dot
  end.

Inductive regex :=
| Lit (p : string)
| Plus (cs : charset)
| Alt (r1 r2 : regex)
| Group (r : regex)
| Seq (r1 r2 : regex).

(** Greedy repetition with backtracking: [star f s k] lets the class [f]
    take as many characters of [s] as it can and offers the remainder to
    the continuation [k]; when [k] fails, one character is given back
    and [k] is tried again. *)
Fixpoint star {A} (f : ascii -> bool) (s : string) (k : string -> option A)
  : option A :=
  match s with
  | EmptyString => k EmptyString
  | String c s' =>
      if f c then
        match star f s' k with
        | Some out => Some out
        | None => k s
        end
      else k s
  end.

Definition cont := string -> list string -> option (list string).

Fixpoint exec (r : regex) (s : string) (gs : list string) (k : cont)
  : option (list string) :=
  match r with
  | Lit p =>
      match Str.strip_prefix p s with
      | Some rest => k rest gs
      | None => None
      end
  | Plus cs =>
      match s with
      | EmptyString => None
      | String c s' =>
          if mem cs c then star (mem cs) s' (fun rest => k rest gs) else None
      end
  | Alt r1 r2 =>
      match exec r1 s gs k with
      | Some out => Some out
      | None => exec r2 s gs k
      end
  | Group r1 =>
      exec r1 s gs (fun rest gs' => k rest (gs' ++ [Str.consumed s rest])%list)
  | Seq r1 r2 =>
      exec r1 s gs (fun rest gs' => exec r2 rest gs' k)
  end.

(** A match anchored at the start of [s]; the result is [groups()]. *)
Definition match_at (r : regex) (s : string) : option (list string) :=
  exec r s [] (fun _ gs => Some gs).

(** [pattern.search(s)], as [Some (m.groups())] or [None]. *)
Fixpoint search (r : regex) (s : string) : option (list string) :=
  match match_at r s with
  | Some gs => Some gs
  | None =>
      match s with
      | EmptyString => None
      | String _ s' => search r s'
      end
  end.

(** What a successful match consumed and captured, declaratively. *)
Fixpoint denotes (r : regex) (w : string) (gs : list string) : Prop :=
  match r with
  | Lit p => w = p /\ gs = []
  | Plus cs => w <> EmptyString /\ Str.all (mem cs) w = true /\ gs = []
  | Alt r1 r2 => denotes r1 w gs \/ denotes r2 w gs
  | Group r1 => exists gs1, denotes r1 w gs1 /\ gs = (gs1 ++ [w])%list
  | Seq r1 r2 =>
      exists w1 w2 gs1 gs2,
        w = w1 ++ w2 /\ gs = (gs1 ++ gs2)%list
        /\ denotes r1 w1 gs1 /\ denotes r2 w2 gs2
  end.

End Re.

Definition status_pattern : Re.regex :=
  Re.Seq (Re.Lit "STATUS:")
    (Re.Seq (Re.Group (Re.Plus Re.Word))
       (Re.Seq (Re.Lit ":") (Re.Group (Re.Plus Re.AnyChar)))).

Definition result_pattern : Re.regex :=
  Re.Seq (Re.Lit "RESULT:")
    (Re.Seq (Re.Group (Re.Plus Re.AnyChar))
       (Re.Seq (Re.Lit ":")
          (Re.Seq (Re.Group (Re.Alt (Re.Lit "PASS") (Re.Lit "FAIL")))
             (Re.Seq (Re.Lit ":") (Re.Group (Re.Plus Re.Digit)))))).

Definition summary_pattern : Re.regex :=
  Re.Seq (Re.Lit "SUMMARY:")
    (Re.Seq (Re.Group (Re.Plus Re.Digit))
       (Re.Seq (Re.Lit ":")
          (Re.Seq (Re.Group (Re.Plus Re.Digit))
             (Re.Seq (Re.Lit ":") (Re.Group (Re.Plus Re.Digit)))))).

Definition log_pattern : Re.regex :=
  Re.Seq (Re.Lit "[")
    (Re.Seq (Re.Group (Re.Plus Re.Digit))
       (Re.Seq (Re.Lit "] [")
          (Re.Seq (Re.Group (Re.Plus Re.Word))
             (Re.Seq (Re.Lit "] ") (Re.Group (Re.Plus Re.AnyChar)))))).

(** ** Python values: exceptions, integers, floats *)

(** An exception: its class and its message, [str(e)]. *)
Inductive exn_class := ValueError | ZeroDivisionError | OverflowError | OSError.

Record exn := mkExn { class_of : exn_class; message : string }.

Inductive outcome (A : Type) :=
| Returned (a : A)
| Raised (e : exn).
Arguments Returned {A} a.
Arguments Raised {A} e.

Module Py.

Definition digit_value (c : ascii) : option Z :=
  if Str.is_digit c then Some (Z.of_N (Str.code c) - 48)%Z else None.

Fixpoint int_digits (acc : Z) (s : string) : option Z :=
  match s with
  | EmptyString => Some acc
  | String c s' =>
      match digit_value c with
      | Some d => int_digits (10 * acc + d)%Z s'
      | None => None
      end
  end.

(** The default of [sys.get_int_max_str_digits()]. *)
Definition int_max_str_digits : Z := 4300.

(** [int(s)] for the strings the monitor converts, unsigned decimal
    numerals; anything else is a [ValueError], and so is a numeral of
    more digits than the interpreter converts. *)
Definition int (s : string) : outcome Z :=
  match (if Str.is_empty s then None else int_digits 0 s) with
  | Some n =>
      if (int_max_str_digits <? Z.of_nat (String.length s))%Z then
        Raised (mkExn ValueError
                  ("Exceeds the limit (" ++ pretty int_max_str_digits
                     ++ " digits) for integer string conversion: value has "
                     ++ pretty (String.length s)
                     ++ " digits; use sys.set_int_max_str_digits() "
                     ++ "to increase the limit"))
      else Returned n
  | None =>
      Raised (mkExn ValueError
                ("invalid literal for int() with base 10: '" ++ s ++ "'"))
  end.

(** [str(n)] as an f-string renders an integer. *)
Definition str (n : Z) : string := pretty n.

(** A Python float is an IEEE 754 binary64. *)
Definition prec : Z := 53.
Definition emax : Z := 1024.
Definition float := spec_float.

Definition is_finite (x : float) : bool :=
  match x with
  | S754_zero _ | S754_finite _ _ _ => true
  | S754_infinity _ | S754_nan => false
  end.

(** The conversion of a (small) integer operand, with rounding to
    nearest even. *)
Definition float_of_int (n : Z) : float :=
  binary_normalize prec emax n 0 false.

(** [a / b] on integers: the quotient of the two integers rounded once
    to the nearest float; a quotient out of range raises. *)
Definition true_divide (a b : Z) : outcome float :=
  match b with
  | Z0 => Raised (mkExn ZeroDivisionError "division by zero")
  | _ =>
      match a with
      | Z0 => Returned (S754_zero (b <? 0)%Z)
      | _ =>
          let '(m, e, l) :=
            SFdiv_core_binary prec emax (Z.abs a) 0 (Z.abs b) 0 in
          let q :=
            binary_round_aux prec emax (xorb (a <? 0)%Z (b <? 0)%Z) m e l in
          if is_finite q then Returned q
          else Raised (mkExn OverflowError
                         "integer division result too large for a float")
      end
  end.

(** [x * y] on floats. *)
Definition float_mul (x y : float) : float := SFmul prec emax x y.

(** An [int] or a [float]. *)
Inductive number :=
| Int (n : Z)
| Float (x : float).

End Py.

(** ** Data model *)

Inductive TestStatus := INIT | RUNNING | PASS | FAIL | COMPLETE.

Global Instance TestStatus_eq_dec : EqDecision TestStatus.
Proof. solve_decision. Defined.

(** [status.value] *)
Definition value (s : TestStatus) : string :=
  match s with
  | INIT => "TEST_INIT"
  | RUNNING => "TEST_RUNNING"
  | PASS => "TEST_PASS"
  | FAIL => "TEST_FAIL"
  | COMPLETE => "TEST_COMPLETE"
  end.

(** [TestStatus(v)], the member whose value is [v]; [None] is the
    [ValueError] of a value that no member has. *)
Definition TestStatus_of_value (v : string) : option TestStatus :=
  if String.eqb v "TEST_INIT" then Some INIT
  else if String.eqb v "TEST_RUNNING" then Some RUNNING
  else if String.eqb v "TEST_PASS" then Some PASS
  else if String.eqb v "TEST_FAIL" then Some FAIL
  else if String.eqb v "TEST_COMPLETE" then Some COMPLETE
  else None.

Record TestResult := mkTestResult {
  name : string;
  status : TestStatus;
  duration_ms : option Z;
  timestamp : string;
  log_messages : list string
}.

Definition set_status (s : TestStatus) (r : TestResult) : TestResult :=
  {| name := name r; status := s; duration_ms := duration_ms r;
     timestamp := timestamp r; log_messages := log_messages r |}.

Definition set_duration_ms (d : Z) (r : TestResult) : TestResult :=
  {| name := name r; status := status r; duration_ms := Some d;
     timestamp := timestamp r; log_messages := log_messages r |}.

(** An element of [log_buffer]: [{'timestamp': ..., 'raw': ...}]. *)
Record LogEntry := mkLogEntry {
  entry_timestamp : string;
  raw : string
}.

(** The dictionary [parse_rtt_line] returns for a summary line. *)
Record RunSummary := mkRunSummary {
  total : Z;
  passed : Z;
  failed : Z;
  success_rate : Py.number
}.

(** The monitor object, with the two parts of its environment that its
    methods act on: what has been printed so far, and how many times the
    wall clock has been read.  ([device], [interface], [speed] and
    [process] are not used by the methods modelled below.) *)
Record RTTMonitor := mkRTTMonitor {
  test_results : gmap string TestResult;
  log_buffer : list LogEntry;
  stdout : list string;
  clock : nat
}.

(** The values of a dict. *)
Definition values (d : gmap string TestResult) : list TestResult :=
  (map_to_list d).*2.

(** [RTTMonitor(...)] in a fresh environment. *)
Definition init : RTTMonitor :=
  {| test_results := ∅; log_buffer := []; stdout := []; clock := 0 |}.

(** *** Computations of the monitor: state and exceptions *)

Definition M (A : Type) : Type := RTTMonitor -> outcome A * RTTMonitor.

Global Instance M_ret : MRet M := fun A (a : A) m => (Returned a, m).

Global Instance M_bind : MBind M := fun A B (k : A -> M B) (c : M A) m =>
  match c m with
  | (Returned a, m') => k a m'
  | (Raised e, m') => (Raised e, m')
  end.

Definition raise {A} (e : exn) : M A := fun m => (Raised e, m).

Definition print (text : string) : M unit := fun m =>
  (Returned tt,
   {| test_results := test_results m; log_buffer := log_buffer m;
      stdout := (stdout m ++ [text])%list; clock := clock m |}).

Definition get_test_results : M (gmap string TestResult) := fun m =>
  (Returned (test_results m), m).

Definition put_test_results (d : gmap string TestResult) : M unit := fun m =>
  (Returned tt,
   {| test_results := d; log_buffer := log_buffer m;
      stdout := stdout m; clock := clock m |}).

Definition log_buffer_append (e : LogEntry) : M unit := fun m =>
  (Returned tt,
   {| test_results := test_results m; log_buffer := (log_buffer m ++ [e])%list;
      stdout := stdout m; clock := clock m |}).

(** Lifts a pure Python expression that may raise. *)
Definition eval {A} (o : outcome A) : M A := fun m => (o, m).

(** ** The monitor *)

(** One entry of [success_conditions]: a status, or a predicate on the
    registry, which like any call may raise. *)
Inductive Condition :=
| StatusCondition (c : TestStatus)
| CallableCondition (f : gmap string TestResult -> outcome bool).

Definition success_conditions : list Condition :=
  [ StatusCondition COMPLETE;
    CallableCondition (fun results =>
      Returned (forallb (fun r => bool_decide (status r = PASS))
                        (values results))) ].

(** [sum(...)] of a sequence of integers. *)
Definition py_sum (l : list Z) : Z := foldl Z.add 0%Z l.

(** The document [save_results] writes. *)
Record ReportEntry := mkReportEntry {
  entry_name : string;
  entry_status : string;
  entry_duration_ms : option Z;
  entry_test_timestamp : string;
  entry_log_messages : list string
}.

Record ReportSummary := mkReportSummary {
  total_tests : Z;
  passed_tests : Z;
  failed_tests : Z
}.

Record Report := mkReport {
  report_test_results : gmap string ReportEntry;
  report_log_buffer : list LogEntry;
  summary : ReportSummary
}.

Definition report_entry (r : TestResult) : ReportEntry :=
  {| entry_name := name r; entry_status := value (status r);
     entry_duration_ms := duration_ms r;
     entry_test_timestamp := timestamp r;
     entry_log_messages := log_messages r |}.

Section Monitor.

(** [isoformat_now i] is what [datetime.now().isoformat()] gives the
    [i]th time the clock is read. *)
Variable isoformat_now : nat -> string.

Definition now : M string := fun m =>
  (Returned (isoformat_now (clock m)),
   {| test_results := test_results m; log_buffer := log_buffer m;
      stdout := stdout m; clock := S (clock m) |}).

(** [TestResult(name, status)]: [__post_init__] fills in the empty
    message list and the creation time. *)
Definition new_TestResult (n : string) (s : TestStatus) : M TestResult :=
  ts ← now;
  mret {| name := n; status := s; duration_ms := None;
          timestamp := ts; log_messages := [] |}.

(** "Parse status messages" *)
Definition parse_status_message (line : string) : M unit :=
  match Re.search status_pattern line with
  | Some [status_str; test_name] =>
      match TestStatus_of_value status_str with
      | Some st =>
          results ← get_test_results;
          match results !! test_name with
          | None =>
              r ← new_TestResult test_name st;
              put_test_results (<[test_name := r]> results)
          | Some r =>
              put_test_results (<[test_name := set_status st r]> results)
          end;;
          print ("[TEST_STATUS] " ++ test_name ++ ": " ++ value st)
      | None => print ("[RTT_MONITOR] Unknown status: " ++ status_str)
      end
  | _ => mret tt
  end.

(** "Parse result messages" *)
Definition parse_result_message (line : string) : M unit :=
  match Re.search result_pattern line with
  | Some [test_name; result_str; duration] =>
      let st := if String.eqb result_str "PASS" then PASS else FAIL in
      results ← get_test_results;
      match results !! test_name with
      | Some r =>
          put_test_results (<[test_name := set_status st r]> results);;
          d ← eval (Py.int duration);
          put_test_results
            (<[test_name := set_duration_ms d (set_status st r)]> results)
      | None => mret tt
      end;;
      print ("[TEST_RESULT] " ++ test_name ++ ": " ++ result_str
               ++ " (" ++ duration ++ "ms)")
  | _ => mret tt
  end.

(** "Parse summary", and when the line is no summary, "Parse regular
    log messages". *)
Definition parse_summary_or_log (line : string) : M (option RunSummary) :=
  match Re.search summary_pattern line with
  | Some [g1; g2; g3] =>
      total ← eval (Py.int g1);
      passed ← eval (Py.int g2);
      failed ← eval (Py.int g3);
      print ("[TEST_SUMMARY] Total: " ++ Py.str total
               ++ ", Passed: " ++ Py.str passed
               ++ ", Failed: " ++ Py.str failed);;
      rate ← (if (0 <? total)%Z then
                q ← eval (Py.true_divide passed total);
                mret (Py.Float (Py.float_mul q (Py.float_of_int 100)))
              else mret (Py.Int 0));
      mret (Some {| total := total; passed := passed; failed := failed;
                    success_rate := rate |})
  | _ =>
      match Re.search log_pattern line with
      | Some [_; level; msg] => print ("[" ++ level ++ "] " ++ msg)
      | _ => print ("[RTT] " ++ line)
      end;;
      mret None
  end.

Definition parse_rtt_line (line : string) : M (option RunSummary) :=
  let line := Str.strip line in
  if Str.is_empty line then mret None
  else
    ts ← now;
    log_buffer_append {| entry_timestamp := ts; raw := line |};;
    parse_status_message line;;
    parse_result_message line;;
    parse_summary_or_log line.

(** The loop of [check_success_condition] over the conditions left. *)
Fixpoint check_conditions (conds : list Condition) : M bool :=
  match conds with
  | [] => mret false
  | StatusCondition c :: rest =>
      results ← get_test_results;
      if existsb (fun r => bool_decide (status r = c)) (values results)
      then mret true
      else check_conditions rest
  | CallableCondition f :: rest =>
      results ← get_test_results;
      match f results with
      | Returned true => mret true
      | Returned false => check_conditions rest
      | Raised e =>
          print ("[RTT_MONITOR] Error in success condition: " ++ message e);;
          check_conditions rest
      end
  end.

Definition check_success_condition : M bool :=
  check_conditions success_conditions.

(** [save_results]: [written] is how the [with] block ends, that is
    [open(filename, 'w')] and [json.dump], which raise when the file
    cannot be opened or written.  The result is [output_data], the
    document that was written to [filename]. *)
Definition save_results (written : outcome unit) (filename : string)
  : M Report :=
  results ← get_test_results;
  buffer ← (fun m => (Returned (log_buffer m), m));
  let output_data :=
    {| report_test_results := report_entry <$> results;
       report_log_buffer := buffer;
       summary :=
         {| total_tests := Z.of_nat (size results);
            passed_tests :=
              py_sum ((fun _ => 1%Z) <$>
                      filter (fun r => status r = PASS) (values results));
            failed_tests :=
              py_sum ((fun _ => 1%Z) <$>
                      filter (fun r => status r = FAIL) (values results))
         |} |} in
  eval written;;
  print ("[RTT_MONITOR] Results saved to " ++ filename);;
  mret output_data.

(** The first effect of [parse_rtt_line] on a line that is not blank:
    "Store all log messages". *)
Definition record_line (l : string) (m : RTTMonitor) : RTTMonitor :=
  {| test_results := test_results m;
     log_buffer :=
       (log_buffer m
          ++ [{| entry_timestamp := isoformat_now (clock m); raw := l |}])%list;
     stdout := stdout m;
     clock := S (clock m) |}.

(** The monitor after [parse_rtt_line] was called on each of [lines] in
    turn. *)
Definition parse_lines (lines : list string) (m : RTTMonitor) : RTTMonitor :=
  foldl (fun m line => snd (parse_rtt_line line m)) m lines.

End Monitor.

(** ** The monitoring session

    [start_rtt_viewer], [monitor_until_success] and [stop_monitoring] talk
    to the wall clock and to the J-Link client process.  What these answer
    is given from outside, as an [Env]; what the monitor asks of them is
    recorded, in order, in [actions]. *)

Module PyTime.

(** [x - y] on floats. *)
Definition float_sub (x y : Py.float) : Py.float :=
  SFsub Py.prec Py.emax x y.

(** [x < n] for a float and an integer: Python compares the two exactly. *)
Definition float_lt_int (x : Py.float) (n : Z) : bool :=
  match x with
  | S754_zero _ => (0 <? n)%Z
  | S754_infinity s => s
  | S754_nan => false
  | S754_finite s m e =>
      let v := if s then Z.neg m else Z.pos m in
      if (0 <=? e)%Z then (v * 2 ^ e <? n)%Z else (v <? n * 2 ^ (- e))%Z
  end.

(** The float literal [0.1]. *)
Definition tenth : Py.float := S754_finite false 7205759403792794 (-56).

End PyTime.

(** A call on the process or on the clock. *)
Inductive action :=
| Popen (cmd : list string)
| Poll
| Readline
| Terminate
| Wait (timeout : Z)
| Kill
| Sleep (seconds : Py.number).

(** How [subprocess.Popen] ends. *)
Inductive popen_result :=
| Spawned
| SpawnFileNotFound
| SpawnFailed (e : exn).

(** What one pass of the monitoring loop meets: the reading of
    [time.time()], then the answer of [process.poll()] (a return code once
    the process has exited), then what [process.stdout.readline()] gives. *)
Record turn := mkTurn {
  time_read : Py.float;
  poll_result : option Z;
  readline_result : outcome string
}.

Record Env := mkEnv {
  popen : popen_result;
  start_time : Py.float;
  turns : list turn;
  (** whether [process.wait(timeout=5)] sees the process exit *)
  exits_in_time : bool
}.

(** The monitor with the attributes and the surroundings that a session
    uses: [process] is whether [self.process] holds a process object. *)
Record Session := mkSession {
  device : string;
  interface : string;
  speed : Z;
  process : bool;
  monitor : RTTMonitor;
  actions : list action
}.

(** [RTTMonitor(device, interface, speed)] *)
Definition new_session (device interface : string) (speed : Z) : Session :=
  {| device := device; interface := interface; speed := speed;
     process := false; monitor := init; actions := [] |}.

Definition act (a : action) (w : Session) : Session :=
  {| device := device w; interface := interface w; speed := speed w;
     process := process w; monitor := monitor w;
     actions := (actions w ++ [a])%list |}.

Definition with_monitor (m : RTTMonitor) (w : Session) : Session :=
  {| device := device w; interface := interface w; speed := speed w;
     process := process w; monitor := m; actions := actions w |}.

Definition with_process (p : bool) (w : Session) : Session :=
  {| device := device w; interface := interface w; speed := speed w;
     process := p; monitor := monitor w; actions := actions w |}.

Definition say (text : string) (w : Session) : Session :=
  with_monitor (print text (monitor w)).2 w.

(** What [monitor_until_success] returns: [False], or [summary_data]. *)
Inductive monitor_return :=
| ReturnFalse
| ReturnSummary (summary_data : option RunSummary).

Definition viewer_command (w : Session) : list string :=
  ["JLinkRTTClient"; "-Device"; device w; "-If"; interface w;
   "-Speed"; Py.str (speed w)].

Definition start_rtt_viewer (r : popen_result) (w : Session) : bool * Session :=
  let w := act (Popen (viewer_command w)) w in
  match r with
  | Spawned =>
      (true,
       say ("[RTT_MONITOR] Started J-Link RTT Client for device: " ++ device w)
           (with_process true w))
  | SpawnFileNotFound =>
      (false,
       say "[RTT_MONITOR] ERROR: J-Link RTT Client not found. Please install J-Link software."
           w)
  | SpawnFailed e =>
      (false,
       say ("[RTT_MONITOR] ERROR: Failed to start RTT viewer: " ++ message e) w)
  end.

Definition stop_monitoring (exits : bool) (w : Session) : Session :=
  if process w then
    let w := act Terminate w in
    let w := act (Wait 5) w in
    let w := if exits then w else act Kill w in
    say "[RTT_MONITOR] RTT monitoring stopped" w
  else w.

Section Session.

Variable isoformat_now : nat -> string.

(** The [while] loop of [monitor_until_success] with its [else] branch:
    the result is [summary_data] when the loop is left, and [None] when
    the turns of the environment run out while the loop is still going. *)
Fixpoint monitor_loop (timeout_seconds : Z) (start : Py.float)
    (ts : list turn) (summary_data : option RunSummary) (w : Session)
  : option (option RunSummary * Session) :=
  match ts with
  | [] => None
  | t :: rest =>
      if PyTime.float_lt_int (PyTime.float_sub (time_read t) start)
           timeout_seconds
      then
        let w := act Poll w in
        match poll_result t with
        | Some _ =>
            Some (summary_data, say "[RTT_MONITOR] RTT process terminated" w)
        | None =>
            let w := act Readline w in
            match readline_result t with
            | Raised e =>
                Some (summary_data,
                      say ("[RTT_MONITOR] Error reading output: " ++ message e) w)
            | Returned line =>
                if Str.is_empty line then
                  monitor_loop timeout_seconds start rest summary_data
                    (act (Sleep (Py.Float PyTime.tenth)) w)
                else
                  match parse_rtt_line isoformat_now line (monitor w) with
                  | (Raised e, m1) =>
                      Some (summary_data,
                            say ("[RTT_MONITOR] Error reading output: "
                                   ++ message e)
                                (with_monitor m1 w))
                  | (Returned result, m1) =>
                      let summary_data :=
                        match result with
                        | Some s => Some s
                        | None => summary_data
                        end in
                      match check_success_condition m1 with
                      | (Returned true, m2) =>
                          Some (summary_data,
                                act (Sleep (Py.Int 1))
                                  (say "[RTT_MONITOR] Success condition met!"
                                       (with_monitor m2 w)))
                      | (Returned false, m2) =>
                          monitor_loop timeout_seconds start rest summary_data
                            (with_monitor m2 w)
                      | (Raised e, m2) =>
                          Some (summary_data,
                                say ("[RTT_MONITOR] Error reading output: "
                                       ++ message e)
                                    (with_monitor m2 w))
                      end
                  end
            end
        end
      else Some (summary_data, say "[RTT_MONITOR] Timeout reached" w)
  end.

Definition monitor_until_success (env : Env) (timeout_seconds : Z)
    (w : Session) : option (monitor_return * Session) :=
  match start_rtt_viewer (popen env) w with
  | (false, w) => Some (ReturnFalse, w)
  | (true, w) =>
      let w :=
        say ("[RTT_MONITOR] Monitoring for " ++ Py.str timeout_seconds
               ++ "s or until success condition...") w in
      match monitor_loop timeout_seconds (start_time env) (turns env) None w with
      | None => None
      | Some (summary_data, w) =>
          Some (ReturnSummary summary_data,
                stop_monitoring (exits_in_time env) w)
      end
  end.

End Session.

(** ** What a line announces

    The markers of a stripped line, read off the patterns alone; the
    properties below relate them to what [parse_rtt_line] does. *)

(** The status marker with a status that [TestStatus] knows. *)
Definition status_event (l : string) : option (string * TestStatus) :=
  match Re.search status_pattern l with
  | Some [tok; n] =>
      match TestStatus_of_value tok with
      | Some st => Some (n, st)
      | None => None
      end
  | _ => None
  end.

(** What each grammar prints when it is tried on the line. *)
Definition status_output (l : string) : list string :=
  match Re.search status_pattern l with
  | Some [tok; n] =>
      match TestStatus_of_value tok with
      | Some st => ["[TEST_STATUS] " ++ n ++ ": " ++ value st]
      | None => ["[RTT_MONITOR] Unknown status: " ++ tok]
      end
  | _ => []
  end.

Definition result_output (l : string) : list string :=
  match Re.search result_pattern l with
  | Some [n; r; d] => ["[TEST_RESULT] " ++ n ++ ": " ++ r ++ " (" ++ d ++ "ms)"]
  | _ => []
  end.

Definition summary_output (l : string) : list string :=
  match Re.search summary_pattern l with
  | Some [g1; g2; g3] =>
      match Py.int g1, Py.int g2, Py.int g3 with
      | Returned t, Returned p, Returned f =>
          ["[TEST_SUMMARY] Total: " ++ Py.str t ++ ", Passed: " ++ Py.str p
             ++ ", Failed: " ++ Py.str f]
      | _, _, _ => []
      end
  | _ => []
  end.

Definition log_output (l : string) : list string :=
  match Re.search log_pattern l with
  | Some [_; level; msg] => ["[" ++ level ++ "] " ++ msg]
  | _ => ["[RTT] " ++ l]
  end.

(** A clock for the examples: the [i]th reading is ["T<i>"]. *)
Definition test_clock (i : nat) : string := "T" ++ pretty i.


(** For the examples: a session as [main] sets it up with its defaults, a
    turn at [t] seconds on which the process is alive and [readline] gives
    [raw], and an environment in which the client starts at second 0 and
    exits on [terminate]. *)
Definition example_session : Session := new_session "STM32F407VG" "SWD" 4000.

Definition reading (t : Z) (raw : string) : turn :=
  {| time_read := Py.float_of_int t; poll_result := None;
     readline_result := Returned raw |}.

Definition example_env (ts : list turn) : Env :=
  {| popen := Spawned; start_time := Py.float_of_int 0; turns := ts;
     exits_in_time := true |}.

(** How often the character [a] occurs in [s]. *)
Fixpoint count_char (a : ascii) (s : string) : nat :=
  match s with
  | EmptyString => 0
  | String c s' => (if Ascii.eqb a c then 1 else 0) + count_char a s'
  end.

(** A numeral too large for a float: 1 followed by [n] zeros. *)
Definition one_and_zeros (n : nat) : string :=
  String "1" (string_of_list_ascii (repeat "0"%char n)).

(** * Properties *)

(** ** Strings *)

Lemma append_cons (c : ascii) (s t : string) :
  String c s ++ t = String c (s ++ t).
Proof. reflexivity. Qed.

Lemma append_empty_l (s : string) : "" ++ s = s.
Proof. reflexivity. Qed.

Lemma append_empty_r (s : string) : s ++ "" = s.
Proof.
  induction s as [|c s IH]; [reflexivity|]. now rewrite append_cons, IH.
Qed.

Lemma append_assoc (s1 s2 s3 : string) : (s1 ++ s2) ++ s3 = s1 ++ s2 ++ s3.
Proof.
  induction s1 as [|c s1 IH]; [reflexivity|]. now rewrite !append_cons, IH.
Qed.

Lemma length_append (s1 s2 : string) :
  String.length (s1 ++ s2) = String.length s1 + String.length s2.
Proof.
  induction s1 as [|c s1 IH]; [reflexivity|].
  rewrite append_cons. simpl. now rewrite IH.
Qed.

Lemma substring_append (w rest : string) :
  String.substring 0 (String.length w) (w ++ rest) = w.
Proof.
  induction w as [|c w IH].
  - rewrite append_empty_l. now destruct rest.
  - rewrite append_cons. simpl. now rewrite IH.
Qed.

Lemma consumed_append (w rest : string) : Str.consumed (w ++ rest) rest = w.
Proof.
  unfold Str.consumed. rewrite length_append.
  replace (String.length w + String.length rest - String.length rest)
    with (String.length w) by lia.
  apply substring_append.
Qed.

Lemma strip_prefix_Some (p s rest : string) :
  Str.strip_prefix p s = Some rest -> s = p ++ rest.
Proof.
  revert s. induction p as [|a p IH]; intros s H; simpl in H.
  - now injection H as ->.
  - destruct s as [|b s]; [discriminate|].
    destruct (Ascii.eqb_spec a b) as [->|]; [|discriminate].
    now rewrite append_cons, (IH _ H).
Qed.


(** ** The matcher only reports what the pattern denotes *)

Lemma star_sound {A} (f : ascii -> bool) (s : string)
    (k : string -> option A) (out : A) :
  Re.star f s k = Some out ->
  exists w rest, s = w ++ rest /\ Str.all f w = true /\ k rest = Some out.
Proof.
  induction s as [|c s IH]; simpl; intros H.
  - exists "", "". auto.
  - destruct (f c) eqn:Hc.
    + destruct (Re.star f s k) as [o|] eqn:Hs.
      * injection H as ->.
        destruct (IH eq_refl) as (w & rest & -> & Hw & Hk).
        exists (String c w), rest. simpl. rewrite Hc, Hw. auto.
      * exists "", (String c s). auto.
    + exists "", (String c s). auto.
Qed.

Lemma exec_sound (r : Re.regex) :
  forall s gs k out,
    Re.exec r s gs k = Some out ->
    exists w rest gs',
      s = w ++ rest /\ Re.denotes r w gs' /\ k rest (gs ++ gs')%list = Some out.
Proof.
  induction r as [p|cs|r1 IH1 r2 IH2|r1 IH1|r1 IH1 r2 IH2];
    intros s gs k out H; simpl in H.
  - destruct (Str.strip_prefix p s) as [rest|] eqn:Hp; [|discriminate].
    apply strip_prefix_Some in Hp.
    exists p, rest, []. rewrite List.app_nil_r. simpl. auto.
  - destruct s as [|c s]; [discriminate|].
    destruct (Re.mem cs c) eqn:Hc; [|discriminate].
    apply star_sound in H as (w & rest & -> & Hw & Hk).
    exists (String c w), rest, []. rewrite List.app_nil_r. simpl.
    rewrite Hc, Hw. repeat split; auto; discriminate.
  - destruct (Re.exec r1 s gs k) as [o|] eqn:H1.
    + injection H as ->.
      destruct (IH1 _ _ _ _ H1) as (w & rest & gs' & ? & ? & ?).
      exists w, rest, gs'. simpl. auto.
    + destruct (IH2 _ _ _ _ H) as (w & rest & gs' & ? & ? & ?).
      exists w, rest, gs'. simpl. auto.
  - destruct (IH1 _ _ _ _ H) as (w & rest & gs' & -> & Hd & Hk).
    rewrite consumed_append in Hk.
    exists w, rest, (gs' ++ [w])%list. rewrite List.app_assoc.
    simpl. eauto.
  - destruct (IH1 _ _ _ _ H) as (w1 & rest1 & gs1 & -> & Hd1 & Hk1).
    destruct (IH2 _ _ _ _ Hk1) as (w2 & rest2 & gs2 & -> & Hd2 & Hk2).
    exists (w1 ++ w2), rest2, (gs1 ++ gs2)%list.
    rewrite append_assoc, List.app_assoc. split; [reflexivity|].
    split; [|assumption]. simpl. exists w1, w2, gs1, gs2. auto.
Qed.

Lemma search_sound (r : Re.regex) (s : string) (gs : list string) :
  Re.search r s = Some gs ->
  exists pre w post, s = pre ++ w ++ post /\ Re.denotes r w gs.
Proof.
  induction s as [|c s IH]; simpl; intros H.
  - destruct (Re.match_at r "") as [o|] eqn:Hm; [|discriminate].
    injection H as ->. unfold Re.match_at in Hm.
    apply exec_sound in Hm as (w & rest & gs' & Hs & Hd & Hk).
    simpl in Hk. injection Hk as <-. exists "", w, rest. auto.
  - destruct (Re.match_at r (String c s)) as [o|] eqn:Hm.
    + injection H as ->. unfold Re.match_at in Hm.
      apply exec_sound in Hm as (w & rest & gs' & Hs & Hd & Hk).
      simpl in Hk. injection Hk as <-. exists "", w, rest. auto.
    + destruct (IH H) as (pre & w & post & -> & Hd).
      exists (String c pre), w, post. auto.
Qed.

(** ** What the four patterns capture *)

Lemma status_pattern_groups (s : string) (gs : list string) :
  Re.search status_pattern s = Some gs ->
  exists tok n,
    gs = [tok; n] /\ tok <> "" /\ Str.all Str.is_word tok = true /\ n <> "".
Proof.
  intros H. apply search_sound in H as (pre & w & post & _ & Hd).
  simpl in Hd.
  destruct Hd as (w1 & w2 & g1 & g2 & _ & -> & [_ ->] & Hd).
  destruct Hd as (w3 & w4 & g3 & g4 & _ & -> & Hg & Hd).
  destruct Hg as (g5 & (Hne & Hall & ->) & ->).
  destruct Hd as (w5 & w6 & g6 & g7 & _ & -> & [_ ->] & Hg).
  destruct Hg as (g8 & (Hne' & _ & ->) & ->).
  exists w3, w6. auto.
Qed.

Lemma result_pattern_groups (s : string) (gs : list string) :
  Re.search result_pattern s = Some gs ->
  exists n r d,
    gs = [n; r; d] /\ (r = "PASS" \/ r = "FAIL")
    /\ d <> "" /\ Str.all Str.is_digit d = true.
Proof.
  intros H. apply search_sound in H as (pre & w & post & _ & Hd).
  simpl in Hd.
  destruct Hd as (w1 & w2 & g1 & g2 & _ & -> & [_ ->] & Hd).
  destruct Hd as (w3 & w4 & g3 & g4 & _ & -> & Hg & Hd).
  destruct Hg as (g5 & (_ & _ & ->) & ->).
  destruct Hd as (w5 & w6 & g6 & g7 & _ & -> & [_ ->] & Hd).
  destruct Hd as (w7 & w8 & g8 & g9 & _ & -> & Hg & Hd).
  destruct Hg as (g10 & Halt & ->).
  destruct Hd as (w9 & w10 & g11 & g12 & _ & -> & [_ ->] & Hg).
  destruct Hg as (g13 & (Hne & Hall & ->) & ->).
  exists w3, w7, w10. simpl.
  destruct Halt as [[-> ->] | [-> ->]]; auto.
Qed.

Lemma summary_pattern_groups (s : string) (gs : list string) :
  Re.search summary_pattern s = Some gs ->
  exists g1 g2 g3,
    gs = [g1; g2; g3]
    /\ (g1 <> "" /\ Str.all Str.is_digit g1 = true)
    /\ (g2 <> "" /\ Str.all Str.is_digit g2 = true)
    /\ (g3 <> "" /\ Str.all Str.is_digit g3 = true).
Proof.
  intros H. apply search_sound in H as (pre & w & post & _ & Hd).
  simpl in Hd.
  destruct Hd as (w1 & w2 & g1 & g2 & _ & -> & [_ ->] & Hd).
  destruct Hd as (w3 & w4 & g3 & g4 & _ & -> & Hg1 & Hd).
  destruct Hg1 as (g5 & (Hne1 & Hall1 & ->) & ->).
  destruct Hd as (w5 & w6 & g6 & g7 & _ & -> & [_ ->] & Hd).
  destruct Hd as (w7 & w8 & g8 & g9 & _ & -> & Hg2 & Hd).
  destruct Hg2 as (g10 & (Hne2 & Hall2 & ->) & ->).
  destruct Hd as (w9 & w10 & g11 & g12 & _ & -> & [_ ->] & Hg3).
  destruct Hg3 as (g13 & (Hne3 & Hall3 & ->) & ->).
  exists w3, w7, w10. simpl. auto.
Qed.

Lemma log_pattern_groups (s : string) (gs : list string) :
  Re.search log_pattern s = Some gs ->
  exists ts level msg, gs = [ts; level; msg].
Proof.
  intros H. apply search_sound in H as (pre & w & post & _ & Hd).
  simpl in Hd.
  destruct Hd as (w1 & w2 & g1 & g2 & _ & -> & [_ ->] & Hd).
  destruct Hd as (w3 & w4 & g3 & g4 & _ & -> & Hg1 & Hd).
  destruct Hg1 as (g5 & (_ & _ & ->) & ->).
  destruct Hd as (w5 & w6 & g6 & g7 & _ & -> & [_ ->] & Hd).
  destruct Hd as (w7 & w8 & g8 & g9 & _ & -> & Hg2 & Hd).
  destruct Hg2 as (g10 & (_ & _ & ->) & ->).
  destruct Hd as (w9 & w10 & g11 & g12 & _ & -> & [_ ->] & Hg3).
  destruct Hg3 as (g13 & (_ & _ & ->) & ->).
  exists w3, w7, w10. reflexivity.
Qed.

(** ** Integers *)

Lemma digit_value_range (c : ascii) (d : Z) :
  Py.digit_value c = Some d -> (0 <= d <= 9)%Z.
Proof.
  unfold Py.digit_value, Str.is_digit, Str.between.
  destruct (_ && _) eqn:H; [|discriminate].
  intros [= <-]. apply andb_true_iff in H as [H1 H2].
  apply N.leb_le in H1, H2. lia.
Qed.

Lemma int_digits_total (s : string) :
  Str.all Str.is_digit s = true ->
  forall acc, (0 <= acc)%Z ->
    exists n, Py.int_digits acc s = Some n /\ (0 <= n)%Z.
Proof.
  induction s as [|c s IH]; simpl; intros Hall acc Hacc.
  - eauto.
  - apply andb_true_iff in Hall as [Hc Hs].
    destruct (Py.digit_value c) as [d|] eqn:Hd.
    + apply digit_value_range in Hd. apply IH; [assumption | lia].
    + unfold Py.digit_value in Hd. rewrite Hc in Hd. discriminate.
Qed.

(** [int] returns on what [\d+] captured, unless the numeral has more
    digits than the interpreter converts. *)
Lemma int_of_digits (s : string) :
  s <> "" -> Str.all Str.is_digit s = true ->
  (Z.of_nat (String.length s) <= Py.int_max_str_digits)%Z ->
  exists n, Py.int s = Returned n /\ (0 <= n)%Z.
Proof.
  intros Hne Hall Hlen. unfold Py.int.
  destruct s as [|c s]; [congruence|]. cbn [Str.is_empty].
  destruct (int_digits_total _ Hall 0%Z) as (n & -> & Hn); [lia|].
  replace (Py.int_max_str_digits <? _)%Z with false
    by (symmetry; apply Z.ltb_ge; assumption).
  eauto.
Qed.


(** What [int] returns on a numeral is not negative. *)
Lemma int_not_negative (s : string) (n : Z) :
  Str.all Str.is_digit s = true -> Py.int s = Returned n -> (0 <= n)%Z.
Proof.
  intros Hall. unfold Py.int.
  destruct (Str.is_empty s); [discriminate|].
  destruct (int_digits_total _ Hall 0%Z) as (n' & -> & Hn); [lia|].
  destruct (Py.int_max_str_digits <? _)%Z; [discriminate|].
  now intros [= <-].
Qed.

(** [int] raises nothing but [ValueError], and on a numeral only for its
    length. *)
Lemma int_raises (s : string) (e : exn) :
  Py.int s = Raised e -> class_of e = ValueError.
Proof.
  unfold Py.int.
  destruct (if Str.is_empty s then None else Py.int_digits 0 s);
    [destruct (Py.int_max_str_digits <? _)%Z|]; now intros [= <-].
Qed.

Lemma int_raises_long (s : string) (e : exn) :
  s <> "" -> Str.all Str.is_digit s = true -> Py.int s = Raised e ->
  (Py.int_max_str_digits < Z.of_nat (String.length s))%Z.
Proof.
  intros Hne Hall H.
  destruct (Z.ltb_spec Py.int_max_str_digits (Z.of_nat (String.length s)))
    as [Hlt|Hle]; [assumption|].
  destruct (int_of_digits s Hne Hall Hle) as (n & Hn & _). congruence.
Qed.

(** ** The steps of [parse_rtt_line] *)

Ltac unfold_M :=
  unfold mbind, M_bind, mret, M_ret, raise, print, get_test_results,
    put_test_results, log_buffer_append, eval in *.

Section Steps.

Variable isoformat_now : nat -> string.

Local Abbreviation parse_status_message := (parse_status_message isoformat_now).
Local Abbreviation parse_rtt_line := (parse_rtt_line isoformat_now).
Local Abbreviation record_line := (record_line isoformat_now).

Ltac status_cases l m :=
  unfold parse_status_message, status_event, status_output;
  destruct (Re.search status_pattern l) as [[|tok' [|n' [|? ?]]]|];
  [| | destruct (TestStatus_of_value tok') as [st'|];
       [unfold_M; unfold new_TestResult, now; unfold_M;
        destruct (test_results m !! n') as [r0|] eqn:Hn |] | |];
  unfold_M; cbn [fst snd test_results log_buffer stdout clock].

Lemma parse_status_message_returns l m :
  (parse_status_message l m).1 = Returned tt.
Proof. status_cases l m; reflexivity. Qed.

Lemma parse_status_message_log_buffer l m :
  log_buffer (parse_status_message l m).2 = log_buffer m.
Proof. status_cases l m; reflexivity. Qed.

Lemma parse_status_message_stdout l m :
  stdout (parse_status_message l m).2 = (stdout m ++ status_output l)%list.
Proof. status_cases l m; rewrite ?List.app_nil_r; reflexivity. Qed.

Lemma parse_status_message_no_event l m :
  status_event l = None ->
  test_results (parse_status_message l m).2 = test_results m.
Proof. status_cases l m; intros H; try reflexivity; discriminate. Qed.

Lemma parse_status_message_event l m n st :
  status_event l = Some (n, st) ->
  test_results (parse_status_message l m).2 =
    match test_results m !! n with
    | Some r => <[n := set_status st r]> (test_results m)
    | None =>
        <[n := {| name := n; status := st; duration_ms := None;
                  timestamp := isoformat_now (clock m);
                  log_messages := [] |}]> (test_results m)
    end.
Proof.
  status_cases l m; intros H; try discriminate;
    injection H as <- <-; rewrite Hn; reflexivity.
Qed.

Lemma parse_result_message_no_match l m :
  Re.search result_pattern l = None -> parse_result_message l m = (Returned tt, m).
Proof. intros H. unfold parse_result_message. now rewrite H. Qed.

(** The result step on a line with a result marker: for a test that is
    not registered only the print; for a registered one the status is
    stored, then [int] converts the duration: when it returns, the
    duration is stored and the marker printed, and when it raises, the
    step ends there. *)
Lemma parse_result_message_match l m n r d :
  Re.search result_pattern l = Some [n; r; d] ->
  parse_result_message l m =
    match test_results m !! n with
    | Some r0 =>
        match Py.int d with
        | Returned z =>
            (Returned tt,
             {| test_results :=
                  <[n := set_duration_ms z
                           (set_status
                              (if String.eqb r "PASS" then PASS else FAIL) r0)]>
                    (test_results m);
                log_buffer := log_buffer m;
                stdout :=
                  (stdout m
                     ++ [("[TEST_RESULT] " ++ n ++ ": " ++ r
                            ++ " (" ++ d ++ "ms)")%string])%list;
                clock := clock m |})
        | Raised e =>
            (Raised e,
             {| test_results :=
                  <[n := set_status
                           (if String.eqb r "PASS" then PASS else FAIL) r0]>
                    (test_results m);
                log_buffer := log_buffer m;
                stdout := stdout m;
                clock := clock m |})
        end
    | None =>
        (Returned tt,
         {| test_results := test_results m;
            log_buffer := log_buffer m;
            stdout :=
              (stdout m
                 ++ [("[TEST_RESULT] " ++ n ++ ": " ++ r
                        ++ " (" ++ d ++ "ms)")%string])%list;
            clock := clock m |})
    end.
Proof.
  intros H. unfold parse_result_message. rewrite H. unfold_M.
  destruct (test_results m !! n) as [r0|]; [destruct (Py.int d)|];
    reflexivity.
Qed.

(** What the result step leaves in the registry. *)
Lemma parse_result_message_test_results l m n r d :
  Re.search result_pattern l = Some [n; r; d] ->
  test_results (parse_result_message l m).2 =
    match test_results m !! n with
    | Some r0 =>
        <[n := match Py.int d with
               | Returned z =>
                   set_duration_ms z
                     (set_status (if String.eqb r "PASS" then PASS else FAIL)
                                 r0)
               | Raised _ =>
                   set_status (if String.eqb r "PASS" then PASS else FAIL) r0
               end]> (test_results m)
    | None => test_results m
    end.
Proof.
  intros H. rewrite (parse_result_message_match l m n r d H).
  destruct (test_results m !! n) as [r0|]; [destruct (Py.int d)|];
    reflexivity.
Qed.

(** The result step returns, or raises the [ValueError] of [int] on the
    duration of a registered test. *)
Lemma parse_result_message_outcome l m :
  (parse_result_message l m).1 = Returned tt
  \/ exists e n r d r0,
       (parse_result_message l m).1 = Raised e
       /\ Re.search result_pattern l = Some [n; r; d]
       /\ test_results m !! n = Some r0
       /\ Py.int d = Raised e.
Proof.
  destruct (Re.search result_pattern l) as [gs|] eqn:H.
  - destruct (result_pattern_groups _ _ H) as (n & r & d & -> & _).
    rewrite (parse_result_message_match l m n r d H).
    destruct (test_results m !! n) as [r0|] eqn:Hn; [|now left].
    destruct (Py.int d) as [z|e] eqn:Hd; [now left|].
    right. exists e, n, r, d, r0. auto.
  - left. now rewrite parse_result_message_no_match.
Qed.

(** It returns when the duration has no more digits than [int] takes. *)
Lemma parse_result_message_returns l m :
  (forall n r d,
     Re.search result_pattern l = Some [n; r; d] ->
     (Z.of_nat (String.length d) <= Py.int_max_str_digits)%Z) ->
  (parse_result_message l m).1 = Returned tt.
Proof.
  intros Hlen.
  destruct (parse_result_message_outcome l m)
    as [H | (e & n & r & d & r0 & _ & Hs & _ & Hd)]; [assumption|].
  destruct (result_pattern_groups _ _ Hs)
    as (? & ? & ? & [= <- <- <-] & _ & Hne & Hdig).
  pose proof (int_raises_long d e Hne Hdig Hd). specialize (Hlen n r d Hs). lia.
Qed.

(** So it does for a marker whose test is not registered. *)
Lemma parse_result_message_returns_unknown l m :
  (forall n r d,
     Re.search result_pattern l = Some [n; r; d] ->
     test_results m !! n = None) ->
  (parse_result_message l m).1 = Returned tt.
Proof.
  intros Hu.
  destruct (parse_result_message_outcome l m)
    as [H | (e & n & r & d & r0 & _ & Hs & Hn & _)]; [assumption|].
  rewrite (Hu n r d Hs) in Hn. discriminate.
Qed.

Lemma parse_result_message_log_buffer l m :
  log_buffer (parse_result_message l m).2 = log_buffer m.
Proof.
  destruct (Re.search result_pattern l) as [gs|] eqn:H.
  - destruct (result_pattern_groups _ _ H) as (n & r & d & -> & _).
    rewrite (parse_result_message_match l m n r d H).
    destruct (test_results m !! n); [destruct (Py.int d)|]; reflexivity.
  - now rewrite parse_result_message_no_match.
Qed.

(** The marker is printed when the step returns, and nothing is printed
    when it raises. *)
Lemma parse_result_message_stdout l m :
  stdout (parse_result_message l m).2 =
    match (parse_result_message l m).1 with
    | Returned _ => (stdout m ++ result_output l)%list
    | Raised _ => stdout m
    end.
Proof.
  unfold result_output.
  destruct (Re.search result_pattern l) as [gs|] eqn:H.
  - destruct (result_pattern_groups _ _ H) as (n & r & d & -> & _).
    rewrite (parse_result_message_match l m n r d H).
    destruct (test_results m !! n); [destruct (Py.int d)|]; reflexivity.
  - rewrite parse_result_message_no_match by assumption.
    cbn [fst snd]. now rewrite List.app_nil_r.
Qed.

(** The last step never touches the registry or the raw log. *)
Lemma parse_summary_or_log_frame l m :
  test_results (parse_summary_or_log l m).2 = test_results m
  /\ log_buffer (parse_summary_or_log l m).2 = log_buffer m.
Proof.
  unfold parse_summary_or_log.
  destruct (Re.search summary_pattern l) as [gs|] eqn:H.
  - destruct (summary_pattern_groups _ _ H) as (g1 & g2 & g3 & -> & _).
    unfold_M. cbn [fst snd].
    destruct (Py.int g1) as [t|]; [|auto].
    destruct (Py.int g2) as [p|]; [|auto].
    destruct (Py.int g3) as [f|]; [|auto].
    cbn [fst snd].
    destruct (0 <? t)%Z; [destruct (Py.true_divide p t)|]; auto.
  - destruct (Re.search log_pattern l) as [[|? [|? [|? [|? ?]]]]|];
      unfold_M; auto.
Qed.

Lemma parse_summary_or_log_stdout l m :
  stdout (parse_summary_or_log l m).2 =
    (stdout m ++ match Re.search summary_pattern l with
                 | Some _ => summary_output l
                 | None => log_output l
                 end)%list.
Proof.
  unfold parse_summary_or_log, summary_output, log_output.
  destruct (Re.search summary_pattern l) as [gs|] eqn:H.
  - destruct (summary_pattern_groups _ _ H) as (g1 & g2 & g3 & -> & _).
    unfold_M. cbn [fst snd].
    destruct (Py.int g1) as [t|]; [|cbn; now rewrite List.app_nil_r].
    destruct (Py.int g2) as [p|]; [|cbn; now rewrite List.app_nil_r].
    destruct (Py.int g3) as [f|]; [|cbn; now rewrite List.app_nil_r].
    cbn [fst snd].
    destruct (0 <? t)%Z; [destruct (Py.true_divide p t)|]; auto.
  - destruct (Re.search log_pattern l) as [[|? [|? [|? [|? ?]]]]|];
      unfold_M; auto.
Qed.

(** A line that is not blank is recorded and then offered to the status
    step, which always returns, to the result step, and when that has
    returned to the summary-or-log step. *)
Lemma parse_rtt_line_nonblank line m :
  Str.is_empty (Str.strip line) = false ->
  parse_rtt_line line m =
    match parse_result_message (Str.strip line)
            (parse_status_message (Str.strip line)
               (record_line (Str.strip line) m)).2 with
    | (Returned _, m2) => parse_summary_or_log (Str.strip line) m2
    | (Raised e, m2) => (Raised e, m2)
    end.
Proof.
  intros H. unfold parse_rtt_line. cbv zeta. rewrite H.
  unfold mbind at 1 2 3 4. unfold M_bind at 1 2 3 4.
  unfold now, log_buffer_append. cbn [fst snd test_results log_buffer stdout clock].
  fold (record_line (Str.strip line) m).
  pose proof (parse_status_message_returns (Str.strip line)
                (record_line (Str.strip line) m)) as H1.
  destruct (parse_status_message _ _) as [o1 m1]. simpl in H1. subst o1.
  cbn [snd].
  destruct (parse_result_message _ _) as [[[]|e] m2]; reflexivity.
Qed.

Lemma parse_rtt_line_blank line m :
  Str.is_empty (Str.strip line) = true ->
  parse_rtt_line line m = (Returned None, m).
Proof. intros H. unfold parse_rtt_line. cbv zeta. now rewrite H. Qed.

(** The registry after a line is what the status and the result step
    leave, and the raw log has the line. *)
Lemma parse_rtt_line_test_results line m :
  Str.is_empty (Str.strip line) = false ->
  test_results (parse_rtt_line line m).2 =
    test_results
      (parse_result_message (Str.strip line)
         (parse_status_message (Str.strip line)
            (record_line (Str.strip line) m)).2).2.
Proof.
  intros H. rewrite parse_rtt_line_nonblank by assumption.
  destruct (parse_result_message _ _) as [[[]|e] m2]; [|reflexivity].
  apply parse_summary_or_log_frame.
Qed.

Lemma parse_rtt_line_log_buffer line m :
  Str.is_empty (Str.strip line) = false ->
  log_buffer (parse_rtt_line line m).2 =
    (log_buffer m
       ++ [{| entry_timestamp := isoformat_now (clock m);
              raw := Str.strip line |}])%list.
Proof.
  intros Hb. rewrite parse_rtt_line_nonblank by assumption.
  pose proof (parse_result_message_log_buffer (Str.strip line)
                (parse_status_message (Str.strip line)
                   (record_line (Str.strip line) m)).2) as H2.
  rewrite parse_status_message_log_buffer in H2.
  destruct (parse_result_message _ _) as [[[]|e] m2]; cbn [snd] in *;
    [rewrite (proj2 (parse_summary_or_log_frame _ _))|]; exact H2.
Qed.

(** When the result step returns, the line returns what the last step
    returns. *)
Lemma parse_rtt_line_result_returned line m :
  Str.is_empty (Str.strip line) = false ->
  (parse_result_message (Str.strip line)
     (parse_status_message (Str.strip line)
        (record_line (Str.strip line) m)).2).1 = Returned tt ->
  parse_rtt_line line m =
    parse_summary_or_log (Str.strip line)
      (parse_result_message (Str.strip line)
         (parse_status_message (Str.strip line)
            (record_line (Str.strip line) m)).2).2.
Proof.
  intros Hb Hr. rewrite parse_rtt_line_nonblank by assumption.
  destruct (parse_result_message _ _) as [[[]|e] m2];
    [reflexivity | discriminate].
Qed.

End Steps.

(** ** The success evaluator *)

Lemma check_success_condition_eq (m : RTTMonitor) :
  check_success_condition m =
    (Returned
       (existsb (fun r => bool_decide (status r = COMPLETE))
                (values (test_results m))
        || forallb (fun r => bool_decide (status r = PASS))
                   (values (test_results m))),
     m).
Proof.
  unfold check_success_condition, success_conditions. simpl. unfold_M.
  destruct (existsb _ _); [reflexivity|].
  destruct (forallb _ _); reflexivity.
Qed.

Lemma elem_of_values (d : gmap string TestResult) (r : TestResult) :
  r ∈ values d <-> exists n, d !! n = Some r.
Proof.
  unfold values. rewrite list_elem_of_fmap. split.
  - intros ([n r'] & -> & H). exists n. now apply elem_of_map_to_list.
  - intros (n & H). exists (n, r). split; [reflexivity|].
    now apply elem_of_map_to_list.
Qed.

(** The evaluator in terms of the registry: some test is [COMPLETE], or
    every test is [PASS]. *)
Lemma check_success_condition_iff (m : RTTMonitor) :
  (check_success_condition m).1 = Returned true <->
  (exists n r, test_results m !! n = Some r /\ status r = COMPLETE)
  \/ (forall n r, test_results m !! n = Some r -> status r = PASS).
Proof.
  rewrite check_success_condition_eq. cbn [fst]. split.
  - intros [= H]. apply orb_true_iff in H as [H|H].
    + left. apply existsb_exists in H as (r & Hin & Hr).
      apply list_elem_of_In, elem_of_values in Hin as (n & Hn).
      apply bool_decide_eq_true_1 in Hr. eauto.
    + right. intros n r Hn. rewrite forallb_forall in H.
      apply (bool_decide_eq_true_1 (status r = PASS)), H.
      apply list_elem_of_In, elem_of_values. eauto.
  - intros [(n & r & Hn & Hr)|H]; f_equal; apply orb_true_iff.
    + left. apply existsb_exists. exists r. split.
      * apply list_elem_of_In, elem_of_values. eauto.
      * now apply bool_decide_eq_true_2.
    + right. apply forallb_forall. intros r Hin.
      apply list_elem_of_In, elem_of_values in Hin as (n & Hn).
      apply bool_decide_eq_true_2. eauto.
Qed.

(** C1, at the input where the code departs from it: on a registry with
    no test at all, [check_success_condition] answers [True] (every test
    of none has passed) and leaves the monitor as it was. *)
Theorem check_success_condition_empty (m : RTTMonitor) :
  test_results m = ∅ -> check_success_condition m = (Returned true, m).
Proof.
  intros H. rewrite check_success_condition_eq, H.
  unfold values. now rewrite map_to_list_empty.
Qed.

(** C9: [check_success_condition] changes nothing, neither the registry
    nor the raw log nor the output, and its answer is determined by the
    registry alone: monitors with equal registries get equal answers, and
    asking again gives the same answer. *)
Theorem check_success_condition_pure :
  (forall m, (check_success_condition m).2 = m)
  /\ (forall m1 m2,
        test_results m1 = test_results m2 ->
        (check_success_condition m1).1 = (check_success_condition m2).1)
  /\ (forall m,
        check_success_condition (check_success_condition m).2
        = check_success_condition m).
Proof.
  split; [|split].
  - intros m. now rewrite check_success_condition_eq.
  - intros m1 m2 H. rewrite !check_success_condition_eq. cbn [fst].
    now rewrite H.
  - intros m. rewrite (check_success_condition_eq m) at 1. reflexivity.
Qed.

(** ** The report *)

Lemma py_sum_ones {A} (l : list A) :
  py_sum ((fun _ => 1%Z) <$> l) = Z.of_nat (length l).
Proof.
  unfold py_sum.
  assert (forall acc, foldl Z.add acc ((fun _ => 1%Z) <$> l)
                      = (acc + Z.of_nat (length l))%Z) as H.
  { induction l as [|x l IH]; intros acc; simpl; [lia|]. rewrite IH. lia. }
  now rewrite H.
Qed.

(** Counting in the list of values is counting in the registry. *)
Lemma count_values (P : TestResult -> Prop) `{!forall r, Decision (P r)}
    (d : gmap string TestResult) :
  length (filter P (values d)) = size (filter (fun kv => P kv.2) d).
Proof.
  unfold values.
  induction d as [|n r d Hn IH] using map_ind.
  - now rewrite map_filter_empty, map_size_empty, map_to_list_empty.
  - rewrite (map_to_list_insert d n r Hn). rewrite fmap_cons, filter_cons.
    cbn [snd]. destruct (decide (P r)) as [HP|HP].
    + rewrite map_filter_insert_True by assumption.
      rewrite map_size_insert_None; [simpl; now rewrite IH|].
      apply map_lookup_filter_None. now left.
    + rewrite map_filter_insert_False by assumption.
      now rewrite delete_id by assumption.
Qed.

Lemma length_values (d : gmap string TestResult) : length (values d) = size d.
Proof. unfold values. now rewrite length_fmap, length_map_to_list. Qed.

Lemma count_pass_fail (l : list TestResult) :
  length (filter (fun r => status r = PASS) l)
  + length (filter (fun r => status r = FAIL) l)
  + length (filter (fun r => status r <> PASS /\ status r <> FAIL) l)
  = length l.
Proof.
  induction l as [|r l IH]; [reflexivity|].
  rewrite !filter_cons.
  destruct (status r) eqn:Hr; repeat case_decide; simpl; try lia;
    try congruence; try tauto;
    exfalso; match goal with H : ¬ (_ /\ _) |- _ => apply H; split; congruence end.
Qed.

(** C10: in every document that [save_results] produces, [total_tests]
    is the number of registry entries, [passed_tests] the number of
    entries whose status is [PASS] and [failed_tests] the number whose
    status is [FAIL]; so they add up to at most [total_tests], and to less
    as soon as some entry is [INIT], [RUNNING] or [COMPLETE].  The counts
    are computed from the registry and from nothing else.  A document is
    produced whenever the file could be written. *)
Theorem save_results_summary (written : outcome unit) (filename : string)
    (m : RTTMonitor) :
  (forall report m',
     save_results written filename m = (Returned report, m') ->
     test_results m' = test_results m
     /\ total_tests (summary report) = Z.of_nat (size (test_results m))
     /\ passed_tests (summary report) =
          Z.of_nat
            (size (filter (fun kv => status kv.2 = PASS) (test_results m)))
     /\ failed_tests (summary report) =
          Z.of_nat
            (size (filter (fun kv => status kv.2 = FAIL) (test_results m)))
     /\ (passed_tests (summary report) + failed_tests (summary report)
           <= total_tests (summary report))%Z
     /\ ((exists n r, test_results m !! n = Some r
                      /\ (status r = INIT \/ status r = RUNNING
                          \/ status r = COMPLETE)) ->
         (passed_tests (summary report) + failed_tests (summary report)
            < total_tests (summary report))%Z))
  /\ exists report m',
       save_results (Returned tt) filename m = (Returned report, m').
Proof.
  split; [|unfold save_results; unfold_M; cbn [fst snd]; eauto].
  intros report m'. unfold save_results. unfold_M. cbn [fst snd].
  destruct written as [[]|e]; [|discriminate].
  intros [= <- <-]. cbn [summary total_tests passed_tests
    failed_tests test_results].
  rewrite !py_sum_ones.
  pose proof (count_pass_fail (values (test_results m))) as Hsum.
  rewrite length_values in Hsum.
  split; [reflexivity|]. split; [reflexivity|].
  split; [f_equal;
          exact (count_values (fun r => status r = PASS) (test_results m))|].
  split; [f_equal;
          exact (count_values (fun r => status r = FAIL) (test_results m))|].
  split; [lia|].
  intros (n & r & Hn & Hr).
  assert (r ∈ filter (fun r => status r <> PASS /\ status r <> FAIL)
                (values (test_results m))) as Hin.
  { apply list_elem_of_filter. split.
    - destruct Hr as [->| [->| ->]]; split; discriminate.
    - apply elem_of_values. eauto. }
  destruct (filter (fun r => status r <> PASS /\ status r <> FAIL)
              (values (test_results m))) as [|x xs] eqn:Hf.
  - inversion Hin.
  - simpl in Hsum. lia.
Qed.

(** ** Lines *)

Lemma search_nonblank (r : Re.regex) (l : string) (gs : list string) :
  Re.search r "" = None -> Re.search r l = Some gs -> Str.is_empty l = false.
Proof. intros H0 H. destruct l; [congruence | reflexivity]. Qed.

Lemma status_event_search (l n : string) (st : TestStatus) :
  status_event l = Some (n, st) ->
  exists tok,
    Re.search status_pattern l = Some [tok; n]
    /\ TestStatus_of_value tok = Some st.
Proof.
  unfold status_event.
  destruct (Re.search status_pattern l) as [[|tok [|n' [|? ?]]]|];
    try discriminate.
  destruct (TestStatus_of_value tok) as [st'|] eqn:Ht; [|discriminate].
  intros [= <- <-]. eauto.
Qed.

Lemma status_event_nonblank (l n : string) (st : TestStatus) :
  status_event l = Some (n, st) -> Str.is_empty l = false.
Proof.
  intros H. apply status_event_search in H as (tok & H & _).
  now apply (search_nonblank status_pattern l [tok; n]).
Qed.

Section Lines.

Variable isoformat_now : nat -> string.

Local Abbreviation parse_status_message := (parse_status_message isoformat_now).
Local Abbreviation parse_rtt_line := (parse_rtt_line isoformat_now).
Local Abbreviation record_line := (record_line isoformat_now).
Local Abbreviation parse_lines := (parse_lines isoformat_now).

Implicit Types (m : RTTMonitor) (l line n : string).

(** *** What happens to the entries of the registry *)

Lemma parse_status_message_persist l m n r :
  test_results m !! n = Some r ->
  exists r',
    test_results (parse_status_message l m).2 !! n = Some r'
    /\ name r' = name r /\ timestamp r' = timestamp r.
Proof.
  intros Hn. destruct (status_event l) as [[n' st]|] eqn:He.
  - rewrite (parse_status_message_event _ _ _ _ _ He).
    destruct (decide (n' = n)) as [->|Hne].
    + rewrite Hn, lookup_insert_eq. eexists. eauto.
    + exists r. destruct (test_results m !! n');
        rewrite lookup_insert_ne by assumption; auto.
  - rewrite parse_status_message_no_event by assumption. eauto.
Qed.

Lemma parse_status_message_created l m n :
  test_results m !! n = None ->
  is_Some (test_results (parse_status_message l m).2 !! n) ->
  exists st, status_event l = Some (n, st).
Proof.
  intros Hn Hs. destruct (status_event l) as [[n' st]|] eqn:He.
  - rewrite (parse_status_message_event _ _ _ _ _ He) in Hs.
    destruct (decide (n' = n)) as [->|Hne]; [eauto|].
    destruct (test_results m !! n');
      rewrite lookup_insert_ne, Hn in Hs by assumption;
      now destruct Hs.
  - rewrite parse_status_message_no_event, Hn in Hs by assumption.
    now destruct Hs.
Qed.


(** A test is in the registry after the status step when it was there
    before, or when the status marker of the line names it. *)
Lemma parse_status_message_registered l m n :
  is_Some (test_results (parse_status_message l m).2 !! n)
  <-> is_Some (test_results m !! n)
      \/ exists st, status_event l = Some (n, st).
Proof.
  split.
  - intros Hs. destruct (test_results m !! n) as [r|] eqn:Hn; [eauto|].
    right. now apply (parse_status_message_created l m).
  - intros [[r Hn] | [st He]].
    + destruct (parse_status_message_persist l m n r Hn) as (r' & -> & _).
      eauto.
    + rewrite (parse_status_message_event _ _ _ _ _ He).
      destruct (test_results m !! n); rewrite lookup_insert_eq; eauto.
Qed.

Lemma parse_result_message_persist l m n r :
  test_results m !! n = Some r ->
  exists r',
    test_results (parse_result_message l m).2 !! n = Some r'
    /\ name r' = name r /\ timestamp r' = timestamp r.
Proof.
  intros Hn. destruct (Re.search result_pattern l) as [gs|] eqn:H.
  - destruct (result_pattern_groups _ _ H) as (n' & res & d & -> & _).
    rewrite (parse_result_message_test_results l m _ _ _ H).
    destruct (decide (n' = n)) as [->|Hne].
    + rewrite Hn, lookup_insert_eq. eexists. split; [reflexivity|].
      destruct (Py.int d); auto.
    + exists r. destruct (test_results m !! n');
        rewrite ?lookup_insert_ne by assumption; auto.
  - rewrite parse_result_message_no_match by assumption. eauto.
Qed.

(** The result step never adds a key. *)
Lemma parse_result_message_absent l m n :
  test_results m !! n = None ->
  test_results (parse_result_message l m).2 !! n = None.
Proof.
  intros Hn. destruct (Re.search result_pattern l) as [gs|] eqn:H.
  - destruct (result_pattern_groups _ _ H) as (n' & res & d & -> & _).
    rewrite (parse_result_message_test_results l m _ _ _ H).
    destruct (test_results m !! n') as [r0|] eqn:Hn'; [|assumption].
    rewrite lookup_insert_ne; [assumption | congruence].
  - now rewrite parse_result_message_no_match.
Qed.

(** The result step looks at the registry only. *)
Lemma parse_result_message_registry l m1 m2 :
  test_results m1 = test_results m2 ->
  test_results (parse_result_message l m1).2
  = test_results (parse_result_message l m2).2.
Proof.
  intros E. destruct (Re.search result_pattern l) as [gs|] eqn:H.
  - destruct (result_pattern_groups _ _ H) as (n & res & d & -> & _).
    rewrite (parse_result_message_test_results l m1 _ _ _ H).
    rewrite (parse_result_message_test_results l m2 _ _ _ H).
    now rewrite E.
  - now rewrite !parse_result_message_no_match.
Qed.

Lemma parse_result_message_unknown l m :
  (forall n r d,
     Re.search result_pattern l = Some [n; r; d] -> test_results m !! n = None) ->
  test_results (parse_result_message l m).2 = test_results m.
Proof.
  intros Hu. destruct (Re.search result_pattern l) as [gs|] eqn:H.
  - destruct (result_pattern_groups _ _ H) as (n & res & d & -> & _).
    rewrite (parse_result_message_test_results l m _ _ _ H).
    now rewrite (Hu _ _ _ eq_refl).
  - now rewrite parse_result_message_no_match.
Qed.

Lemma parse_rtt_line_persist line m n r :
  test_results m !! n = Some r ->
  exists r',
    test_results (parse_rtt_line line m).2 !! n = Some r'
    /\ name r' = name r /\ timestamp r' = timestamp r.
Proof.
  intros Hn. destruct (Str.is_empty (Str.strip line)) eqn:Hb.
  - rewrite parse_rtt_line_blank by assumption. eauto.
  - rewrite parse_rtt_line_test_results by assumption.
    destruct (parse_status_message_persist (Str.strip line)
                (record_line (Str.strip line) m) n r Hn)
      as (r1 & H1 & N1 & T1).
    destruct (parse_result_message_persist (Str.strip line) _ n r1 H1)
      as (r2 & H2 & N2 & T2).
    exists r2. repeat split; congruence.
Qed.

Lemma parse_lines_persist lines m n r :
  test_results m !! n = Some r ->
  exists r',
    test_results (parse_lines lines m) !! n = Some r'
    /\ name r' = name r /\ timestamp r' = timestamp r.
Proof.
  revert m r. induction lines as [|line lines IH]; intros m r Hn.
  - simpl. eauto.
  - destruct (parse_rtt_line_persist line m n r Hn) as (r1 & H1 & N1 & T1).
    destruct (IH _ _ H1) as (r2 & H2 & N2 & T2).
    exists r2. unfold parse_lines in *. simpl.
    repeat split; congruence.
Qed.

End Lines.

(** ** What [parse_rtt_line] does with a line *)

Section Parsing.

Variable isoformat_now : nat -> string.

Local Abbreviation parse_status_message := (parse_status_message isoformat_now).
Local Abbreviation parse_rtt_line := (parse_rtt_line isoformat_now).
Local Abbreviation record_line := (record_line isoformat_now).
Local Abbreviation parse_lines := (parse_lines isoformat_now).

Implicit Types (m : RTTMonitor) (l line n : string).


(** The result step of a line returns when the duration of its result
    marker has no more digits than [int] takes, or when the test of the
    marker is not registered: neither in the registry before the line nor
    named by the status marker of the line. *)
Lemma result_step_returns line m :
  (forall n r d,
     Re.search result_pattern (Str.strip line) = Some [n; r; d] ->
     (Z.of_nat (String.length d) <= Py.int_max_str_digits)%Z
     \/ (test_results m !! n = None
         /\ forall st, status_event (Str.strip line) <> Some (n, st))) ->
  (parse_result_message (Str.strip line)
     (parse_status_message (Str.strip line)
        (record_line (Str.strip line) m)).2).1 = Returned tt.
Proof.
  intros H.
  destruct (parse_result_message_outcome (Str.strip line)
              (parse_status_message (Str.strip line)
                 (record_line (Str.strip line) m)).2)
    as [Hr | (e & n & r & d & r0 & _ & Hs & Hn & Hd)]; [assumption|].
  destruct (result_pattern_groups _ _ Hs)
    as (? & ? & ? & [= <- <- <-] & _ & Hne & Hdig).
  pose proof (int_raises_long d e Hne Hdig Hd).
  destruct (H n r d Hs) as [Hlen | [Hnone Hst]]; [lia|].
  exfalso.
  destruct (proj1 (parse_status_message_registered isoformat_now
                     (Str.strip line) (record_line (Str.strip line) m) n))
    as [[r1 Hx] | [st Hx]].
  - rewrite Hn. eauto.
  - cbn [record_line test_results] in Hx. congruence.
  - exact (Hst st Hx).
Qed.


(** What a line that is not blank prints: the status marker, and when
    the result step returns, the result marker and then the summary or
    the log message. *)
Lemma parse_rtt_line_stdout line m :
  Str.is_empty (Str.strip line) = false ->
  stdout (parse_rtt_line line m).2 =
    (stdout m
       ++ status_output (Str.strip line)
       ++ match (parse_result_message (Str.strip line)
                   (parse_status_message (Str.strip line)
                      (record_line (Str.strip line) m)).2).1 with
          | Returned _ =>
              result_output (Str.strip line)
                ++ match Re.search summary_pattern (Str.strip line) with
                   | Some _ => summary_output (Str.strip line)
                   | None => log_output (Str.strip line)
                   end
          | Raised _ => []
          end)%list.
Proof.
  intros Hb. rewrite parse_rtt_line_nonblank by assumption.
  pose proof (parse_result_message_stdout (Str.strip line)
                (parse_status_message (Str.strip line)
                   (record_line (Str.strip line) m)).2) as H2.
  rewrite parse_status_message_stdout in H2. cbn [record_line stdout] in H2.
  destruct (parse_result_message _ _) as [[[]|e] m2]; cbn [fst snd] in *.
  - rewrite parse_summary_or_log_stdout, H2. now rewrite <- !List.app_assoc.
  - rewrite H2. now rewrite List.app_nil_r.
Qed.

(** A line whose result step raises ends there. *)
Lemma parse_rtt_line_result_raised line m e :
  Str.is_empty (Str.strip line) = false ->
  (parse_result_message (Str.strip line)
     (parse_status_message (Str.strip line)
        (record_line (Str.strip line) m)).2).1 = Raised e ->
  (parse_rtt_line line m).1 = Raised e.
Proof.
  intros Hb Hr. rewrite parse_rtt_line_nonblank by assumption.
  destruct (parse_result_message _ _) as [[[]|e'] m2]; cbn [fst] in *;
    congruence.
Qed.


(** C3, as amended: a record is created only by a status marker with a
    known status that names a test not yet in the registry, and every such
    marker creates one, stamped with the time of that line; a result
    marker never creates a record.  Once in the registry a name stays
    there through every later line, with the same [name] and creation
    [timestamp]. *)
Theorem test_result_created_by_status_only :
  (forall line m n,
     test_results m !! n = None ->
     is_Some (test_results (parse_rtt_line line m).2 !! n) ->
     exists st, status_event (Str.strip line) = Some (n, st))
  /\ (forall line m n st,
        test_results m !! n = None ->
        status_event (Str.strip line) = Some (n, st) ->
        exists r,
          test_results (parse_rtt_line line m).2 !! n = Some r
          /\ name r = n /\ timestamp r = isoformat_now (S (clock m)))
  /\ (forall lines m n r,
        test_results m !! n = Some r ->
        exists r',
          test_results (parse_lines lines m) !! n = Some r'
          /\ name r' = name r /\ timestamp r' = timestamp r).
Proof.
  split; [|split].
  - intros line m n Hn Hs.
    destruct (Str.is_empty (Str.strip line)) eqn:Hb.
    + rewrite parse_rtt_line_blank in Hs by assumption. cbn [snd] in Hs.
      rewrite Hn in Hs. now destruct Hs.
    + rewrite parse_rtt_line_test_results in Hs by assumption.
      apply (parse_status_message_created isoformat_now (Str.strip line)
               (record_line (Str.strip line) m)); [assumption|].
      destruct (test_results (parse_status_message _ _).2 !! n) eqn:E; [eauto|].
      rewrite parse_result_message_absent in Hs by assumption.
      now destruct Hs.
  - intros line m n st Hn He.
    rewrite parse_rtt_line_test_results
    by (eapply status_event_nonblank; eauto).
    pose proof (parse_status_message_event isoformat_now _
                  (record_line (Str.strip line) m) _ _ He) as H1.
    cbn [record_line test_results clock] in H1. rewrite Hn in H1.
    assert (test_results
              (parse_status_message (Str.strip line)
                 (record_line (Str.strip line) m)).2 !! n
            = Some {| name := n; status := st; duration_ms := None;
                      timestamp := isoformat_now (S (clock m));
                      log_messages := [] |}) as H2
      by (rewrite H1; apply lookup_insert_eq).
    destruct (parse_result_message_persist (Str.strip line) _ _ _ H2)
      as (r & Hr & Hname & Hts).
    exists r. auto.
  - intros lines m n r. apply parse_lines_persist.
Qed.

(** C4, as amended: when the result grammar matches with a test name that
    is not in the registry, and the line carries no status marker with a
    known status, the registry after the line is the registry before it;
    the line is in the raw log all the same. *)
Theorem unknown_result_leaves_registry line m n r d :
  Re.search result_pattern (Str.strip line) = Some [n; r; d] ->
  test_results m !! n = None ->
  status_event (Str.strip line) = None ->
  test_results (parse_rtt_line line m).2 = test_results m
  /\ log_buffer (parse_rtt_line line m).2 =
       (log_buffer m
          ++ [{| entry_timestamp := isoformat_now (clock m);
                 raw := Str.strip line |}])%list.
Proof.
  intros Hs Hn He.
  assert (Str.is_empty (Str.strip line) = false) as Hb
    by (now apply (search_nonblank result_pattern _ [n; r; d])).
  split; [|now apply parse_rtt_line_log_buffer].
  rewrite parse_rtt_line_test_results by assumption.
  rewrite (parse_result_message_test_results _ _ _ _ _ Hs).
  rewrite parse_status_message_no_event by assumption.
  cbn [record_line test_results]. now rewrite Hn.
Qed.



(** C7: when the status grammar matches with a token that is no
    [TestStatus] value, the whole effect of the status marker is the
    diagnostic: the status step is that one [print], whatever the monitor;
    the line is appended to the raw log, the diagnostic is the first thing
    the line prints, and the registry after the line is what the result
    marker of the line, if any, makes of the registry before it. *)
Theorem unknown_status_token_discarded line m tok n :
  Re.search status_pattern (Str.strip line) = Some [tok; n] ->
  TestStatus_of_value tok = None ->
  (forall m0,
     parse_status_message (Str.strip line) m0 =
       print ("[RTT_MONITOR] Unknown status: " ++ tok) m0)
  /\ log_buffer (parse_rtt_line line m).2 =
       (log_buffer m
          ++ [{| entry_timestamp := isoformat_now (clock m);
                 raw := Str.strip line |}])%list
  /\ (exists rest,
        stdout (parse_rtt_line line m).2 =
          (stdout m ++ ("[RTT_MONITOR] Unknown status: " ++ tok)%string :: rest)%list)
  /\ test_results (parse_rtt_line line m).2 =
       test_results (parse_result_message (Str.strip line) m).2.
Proof.
  intros Hs Htok.
  assert (Str.is_empty (Str.strip line) = false) as Hb
    by (now apply (search_nonblank status_pattern _ [tok; n])).
  assert (status_event (Str.strip line) = None) as He
    by (unfold status_event; now rewrite Hs, Htok).
  split; [|split; [|split]].
  - intros m0. unfold parse_status_message. now rewrite Hs, Htok.
  - now apply parse_rtt_line_log_buffer.
  - rewrite parse_rtt_line_stdout by assumption. unfold status_output at 1.
    rewrite Hs, Htok. eexists. reflexivity.
  - rewrite parse_rtt_line_test_results by assumption.
    apply parse_result_message_registry.
    now rewrite parse_status_message_no_event.
Qed.

(** C8: a line that is blank once stripped returns [None] and changes
    nothing; any other line gets exactly one entry, its stripped text with
    the time of the call, at the end of the raw log, whichever grammars
    match it. *)
Theorem parse_rtt_line_records_line line m :
  if Str.is_empty (Str.strip line)
  then parse_rtt_line line m = (Returned None, m)
  else log_buffer (parse_rtt_line line m).2 =
         (log_buffer m
            ++ [{| entry_timestamp := isoformat_now (clock m);
                   raw := Str.strip line |}])%list.
Proof.
  destruct (Str.is_empty (Str.strip line)) eqn:Hb.
  - now apply parse_rtt_line_blank.
  - now apply parse_rtt_line_log_buffer.
Qed.

End Parsing.

(** ** Concrete runs *)

(** [SUMMARY:10:7:3] gives 70.0, [SUMMARY:0:0:0] gives the integer 0. *)
Example summary_10_7_3 :
  (parse_rtt_line test_clock "SUMMARY:10:7:3" init).1 =
    Returned (Some {| total := 10; passed := 7; failed := 3;
                      success_rate := Py.Float (Py.float_of_int 70) |}).
Proof. vm_compute. reflexivity. Qed.

Example summary_0_0_0 :
  (parse_rtt_line test_clock "SUMMARY:0:0:0" init).1 =
    Returned (Some {| total := 0; passed := 0; failed := 0;
                      success_rate := Py.Int 0 |}).
Proof. vm_compute. reflexivity. Qed.

(** The rate is a float product, not an exact one: 7/100*100 is the float
    next above 7. *)
Example summary_100_7_93 :
  (parse_rtt_line test_clock "SUMMARY:100:7:93" init).1 =
    Returned (Some {| total := 100; passed := 7; failed := 93;
                      success_rate :=
                        Py.Float (S754_finite false 7881299347898369 (-50)) |}).
Proof. vm_compute. reflexivity. Qed.

(** A quotient beyond the floats raises. *)
Example true_divide_overflow :
  Py.true_divide (10 ^ 400) 1 =
    Raised (mkExn OverflowError "integer division result too large for a float").
Proof. vm_compute. reflexivity. Qed.

Example summary_line_overflow :
  (parse_rtt_line test_clock ("SUMMARY:1:" ++ one_and_zeros 400 ++ ":0") init).1
  = Raised (mkExn OverflowError "integer division result too large for a float").
Proof. vm_compute. reflexivity. Qed.

(** A summary field of 4301 digits: [int] raises, and nothing is
    printed. *)
Example summary_field_beyond_int_limit :
  (parse_rtt_line test_clock ("SUMMARY:" ++ one_and_zeros 4300 ++ ":1:0")
     init).1
  = Raised (mkExn ValueError
              ("Exceeds the limit (4300 digits) for integer string "
               ++ "conversion: value has 4301 digits; use "
               ++ "sys.set_int_max_str_digits() to increase the limit"))
  /\ stdout
       (parse_rtt_line test_clock ("SUMMARY:" ++ one_and_zeros 4300 ++ ":1:0")
          init).2 = [].
Proof. vm_compute. split; reflexivity. Qed.

(** A numeral of 4300 digits is still converted. *)
Example int_at_the_limit :
  String.length (String "0" (one_and_zeros 4298)) = 4300
  /\ Py.int (String "0" (one_and_zeros 4298)) = Returned (10 ^ 4298)%Z.
Proof. vm_compute. split; reflexivity. Qed.

(** The report is not produced when the file cannot be opened. *)
Example save_results_unwritable :
  save_results
    (Raised (mkExn OSError "[Errno 2] No such file or directory: 'logs/r.json'"))
    "logs/r.json" init
  = (Raised (mkExn OSError "[Errno 2] No such file or directory: 'logs/r.json'"),
     init).
Proof. reflexivity. Qed.

(** A line that is a result marker from end to end, for a test that is not
    registered, whose test name holds a status marker. *)
Example result_line_with_status_in_name :
  Re.search result_pattern "RESULT:STATUS:TEST_INIT:x:PASS:5"
  = Some ["STATUS:TEST_INIT:x"; "PASS"; "5"]
  /\ test_results
       (parse_rtt_line test_clock "RESULT:STATUS:TEST_INIT:x:PASS:5" init).2
     !! "x:PASS:5"
     = Some {| name := "x:PASS:5"; status := INIT; duration_ms := None;
               timestamp := "T1"; log_messages := [] |}.
Proof. vm_compute. split; reflexivity. Qed.

(** The summary marker of a line does not feed the report. *)
Example report_ignores_summary_marker :
  match (save_results (Returned tt) "r.json"
           (parse_rtt_line test_clock "SUMMARY:10:7:3" init).2).1 with
  | Returned report => Some (summary report)
  | Raised _ => None
  end = Some {| total_tests := 0; passed_tests := 0; failed_tests := 0 |}.
Proof. vm_compute. reflexivity. Qed.

(** Scenario A of the design notes. *)
Example scenario_A :
  let m := parse_lines test_clock
             ["STATUS:TEST_INIT:t1"; "STATUS:TEST_PASS:t1"; "SUMMARY:1:1:0"]
             init in
  test_results m !! "t1"
  = Some {| name := "t1"; status := PASS; duration_ms := None;
            timestamp := "T1"; log_messages := [] |}
  /\ (check_success_condition m).1 = Returned true.
Proof. vm_compute. split; reflexivity. Qed.

(** ** The claims at concrete inputs *)

Lemma check_success_condition_empty_witness :
  test_results init = ∅ /\ check_success_condition init = (Returned true, init).
Proof.
  split; [reflexivity | apply check_success_condition_empty; reflexivity].
Defined.



(** C3 as stated fails: a result marker for a test that no status marker
    announced creates no record. *)
Lemma result_marker_creates_no_record :
  Re.search status_pattern "RESULT:t1:PASS:5" = None
  /\ Re.search result_pattern "RESULT:t1:PASS:5" = Some ["t1"; "PASS"; "5"]
  /\ test_results init !! "t1" = None
  /\ test_results (parse_rtt_line test_clock "RESULT:t1:PASS:5" init).2 !! "t1"
     = None.
Proof. vm_compute. repeat split. Qed.

Lemma test_result_created_by_status_only_witness :
  test_results init !! "t1" = None
  /\ status_event (Str.strip "STATUS:TEST_INIT:t1") = Some ("t1", INIT)
  /\ exists r,
       test_results (parse_rtt_line test_clock "STATUS:TEST_INIT:t1" init).2
         !! "t1" = Some r
       /\ name r = "t1" /\ timestamp r = test_clock (S (clock init)).
Proof.
  split; [reflexivity|]. split; [reflexivity|].
  apply (proj1 (proj2 (test_result_created_by_status_only test_clock))
           "STATUS:TEST_INIT:t1" init "t1" INIT); reflexivity.
Defined.

(** C4 as stated fails: the result marker names a test that is not in the
    registry, the status marker of the same line creates it, and the
    result marker then applies to it. *)
Lemma unknown_result_beside_status_marker :
  Re.search result_pattern (Str.strip "RESULT:x:PASS:5 STATUS:TEST_INIT:x")
  = Some ["x"; "PASS"; "5"]
  /\ test_results init !! "x" = None
  /\ test_results
       (parse_rtt_line test_clock "RESULT:x:PASS:5 STATUS:TEST_INIT:x" init).2
     !! "x"
     = Some {| name := "x"; status := PASS; duration_ms := Some 5%Z;
               timestamp := "T1"; log_messages := [] |}.
Proof. vm_compute. repeat split. Qed.

Lemma unknown_result_leaves_registry_witness :
  Re.search result_pattern (Str.strip "RESULT:ghost:FAIL:9")
  = Some ["ghost"; "FAIL"; "9"]
  /\ test_results init !! "ghost" = None
  /\ status_event (Str.strip "RESULT:ghost:FAIL:9") = None
  /\ test_results (parse_rtt_line test_clock "RESULT:ghost:FAIL:9" init).2
     = test_results init
  /\ log_buffer (parse_rtt_line test_clock "RESULT:ghost:FAIL:9" init).2
     = (log_buffer init
          ++ [{| entry_timestamp := test_clock (clock init);
                 raw := Str.strip "RESULT:ghost:FAIL:9" |}])%list.
Proof.
  split; [reflexivity|]. split; [reflexivity|]. split; [reflexivity|].
  apply (unknown_result_leaves_registry test_clock "RESULT:ghost:FAIL:9" init
           "ghost" "FAIL" "9"); reflexivity.
Defined.

(** C5 as stated fails: the result grammar matches with [PASS] a test
    that is in the registry, the duration has 4301 digits, and after the
    call, which raises, the entry has status [PASS] and no duration. *)
Lemma result_duration_beyond_int_limit :
  let m := (parse_rtt_line test_clock "STATUS:TEST_RUNNING:t1" init).2 in
  let line := "RESULT:t1:PASS:" ++ one_and_zeros 4300 in
  String.length (one_and_zeros 4300) = 4301
  /\ Re.search result_pattern (Str.strip line)
     = Some ["t1"; "PASS"; one_and_zeros 4300]
  /\ test_results m !! "t1"
     = Some {| name := "t1"; status := RUNNING; duration_ms := None;
               timestamp := "T1"; log_messages := [] |}
  /\ (parse_rtt_line test_clock line m).1
     = Raised (mkExn ValueError
                 ("Exceeds the limit (4300 digits) for integer string "
                  ++ "conversion: value has 4301 digits; use "
                  ++ "sys.set_int_max_str_digits() to increase the limit"))
  /\ test_results (parse_rtt_line test_clock line m).2 !! "t1"
     = Some {| name := "t1"; status := PASS; duration_ms := None;
               timestamp := "T1"; log_messages := [] |}.
Proof. vm_compute. repeat split. Qed.




Lemma unknown_status_token_discarded_witness :
  Re.search status_pattern (Str.strip "STATUS:BOGUS:t1") = Some ["BOGUS"; "t1"]
  /\ TestStatus_of_value "BOGUS" = None
  /\ log_buffer (parse_rtt_line test_clock "STATUS:BOGUS:t1" init).2
     = (log_buffer init
          ++ [{| entry_timestamp := test_clock (clock init);
                 raw := Str.strip "STATUS:BOGUS:t1" |}])%list
  /\ test_results (parse_rtt_line test_clock "STATUS:BOGUS:t1" init).2
     = test_results (parse_result_message (Str.strip "STATUS:BOGUS:t1") init).2.
Proof.
  split; [reflexivity|]. split; [reflexivity|].
  pose proof (unknown_status_token_discarded test_clock "STATUS:BOGUS:t1" init
                "BOGUS" "t1" eq_refl eq_refl) as (_ & Hlog & _ & Hreg).
  split; assumption.
Defined.

Lemma check_success_condition_pure_witness :
  let m := (parse_rtt_line test_clock "hello" init).2 in
  test_results init = test_results m
  /\ log_buffer init <> log_buffer m
  /\ (check_success_condition init).1 = (check_success_condition m).1.
Proof.
  split; [reflexivity|]. split; [discriminate|].
  apply (proj1 (proj2 check_success_condition_pure)); reflexivity.
Defined.

Lemma save_results_summary_witness :
  let m := parse_lines test_clock
             ["STATUS:TEST_INIT:t1"; "STATUS:TEST_PASS:t2"] init in
  test_results m !! "t1"
  = Some {| name := "t1"; status := INIT; duration_ms := None;
            timestamp := "T1"; log_messages := [] |}
  /\ exists report m',
       save_results (Returned tt) "test_results.json" m = (Returned report, m')
       /\ (passed_tests (summary report) + failed_tests (summary report)
             < total_tests (summary report))%Z.
Proof.
  split; [vm_compute; reflexivity|].
  destruct (save_results_summary (Returned tt) "test_results.json"
              (parse_lines test_clock
                 ["STATUS:TEST_INIT:t1"; "STATUS:TEST_PASS:t2"] init))
    as (Hdoc & report & m' & Hsave).
  destruct (Hdoc report m' Hsave) as (_ & _ & _ & _ & _ & Hlt).
  exists report, m'. split; [exact Hsave|].
  apply Hlt. eexists "t1", _. split; [vm_compute; reflexivity|].
  left. reflexivity.
Defined.

(** * Further properties *)

(** ** The matcher finds well-formed markers *)

Lemma strip_prefix_append (p s : string) :
  Str.strip_prefix p (p ++ s) = Some s.
Proof.
  induction p as [|a p IH]; [reflexivity|].
  rewrite append_cons. simpl. now rewrite Ascii.eqb_refl.
Qed.

Lemma consumed_all (s : string) : Str.consumed s "" = s.
Proof.
  rewrite <- (append_empty_r s) at 1. apply consumed_append.
Qed.

Lemma exec_lit (p s : string) (gs : list string) (k : Re.cont) :
  Re.exec (Re.Lit p) (p ++ s) gs k = k s gs.
Proof. simpl. now rewrite strip_prefix_append. Qed.

(** The class takes everything when everything is in it. *)
Lemma star_take_all {A} (f : ascii -> bool) (s : string)
    (k : string -> option A) (out : A) :
  Str.all f s = true -> k "" = Some out -> Re.star f s k = Some out.
Proof.
  induction s as [|c s IH]; simpl; intros Hall Hk; [assumption|].
  apply andb_true_iff in Hall as [-> Hs]. now rewrite (IH Hs Hk).
Qed.

(** The class stops in front of a character that is not in it. *)
Lemma star_until {A} (f : ascii -> bool) (u : string) (c : ascii) (v : string)
    (k : string -> option A) (out : A) :
  Str.all f u = true -> f c = false -> k (String c v) = Some out ->
  Re.star f (u ++ String c v) k = Some out.
Proof.
  induction u as [|a u IH]; intros Hall Hc Hk.
  - rewrite append_empty_l. simpl. now rewrite Hc.
  - rewrite append_cons. simpl in *.
    apply andb_true_iff in Hall as [-> Hu]. now rewrite (IH Hu Hc Hk).
Qed.



Lemma exec_group_plus_until (cs : Re.charset) (w : string) (c : ascii)
    (rest : string) (gs : list string) (k : Re.cont) (out : list string) :
  w <> "" -> Str.all (Re.mem cs) w = true -> Re.mem cs c = false ->
  k (String c rest) (gs ++ [w])%list = Some out ->
  Re.exec (Re.Group (Re.Plus cs)) (w ++ String c rest) gs k = Some out.
Proof.
  intros Hne Hall Hc Hk. destruct w as [|a w]; [congruence|].
  simpl in Hall. apply andb_true_iff in Hall as [Ha Hw].
  cbn [Re.exec]. rewrite append_cons, Ha.
  apply star_until; [assumption..|].
  change (String a (w ++ String c rest)) with (String a w ++ String c rest).
  now rewrite consumed_append.
Qed.

Lemma exec_group_plus_end (cs : Re.charset) (w : string)
    (gs : list string) (k : Re.cont) (out : list string) :
  w <> "" -> Str.all (Re.mem cs) w = true ->
  k "" (gs ++ [w])%list = Some out ->
  Re.exec (Re.Group (Re.Plus cs)) w gs k = Some out.
Proof.
  intros Hne Hall Hk. destruct w as [|a w]; [congruence|].
  simpl in Hall. apply andb_true_iff in Hall as [Ha Hw].
  cbn [Re.exec]. rewrite Ha.
  apply star_take_all; [assumption|]. now rewrite consumed_all.
Qed.


Lemma search_match_at (r : Re.regex) (s : string) (gs : list string) :
  Re.match_at r s = Some gs -> Re.search r s = Some gs.
Proof. intros H. destruct s; simpl; now rewrite H. Qed.

Lemma colon_not_word : Re.mem Re.Word ":" = false.
Proof. reflexivity. Qed.


Lemma exec_seq (r1 r2 : Re.regex) (s : string) (gs : list string)
    (k : Re.cont) :
  Re.exec (Re.Seq r1 r2) s gs k
  = Re.exec r1 s gs (fun rest gs' => Re.exec r2 rest gs' k).
Proof. reflexivity. Qed.

Lemma exec_seq_lit (p : string) (r : Re.regex) (s : string)
    (gs : list string) (k : Re.cont) :
  Re.exec (Re.Seq (Re.Lit p) r) (p ++ s) gs k = Re.exec r s gs k.
Proof. rewrite exec_seq. apply exec_lit. Qed.

(** [STATUS:<token>:<name>] is found as such, whatever the token. *)
Lemma status_line_recognised (tok n : string) :
  tok <> "" -> Str.all Str.is_word tok = true ->
  n <> "" -> Str.all Str.is_dot n = true ->
  Re.search status_pattern ("STATUS:" ++ tok ++ ":" ++ n) = Some [tok; n].
Proof.
  intros Ht Hw Hn Hd. apply search_match_at.
  unfold Re.match_at, status_pattern.
  rewrite exec_seq_lit, exec_seq.
  apply exec_group_plus_until; [assumption..|apply colon_not_word|].
  change (String ":" n) with (":" ++ n). rewrite exec_seq_lit.
  now apply exec_group_plus_end.
Qed.










(** ** More on what a line does to the monitor *)

Lemma true_divide_raises (p t : Z) (e : exn) :
  (0 < t)%Z -> Py.true_divide p t = Raised e -> class_of e = OverflowError.
Proof.
  intros Ht. unfold Py.true_divide.
  destruct t as [|t|t]; [lia| |lia].
  destruct p as [|p|p]; [discriminate| |];
    destruct (SFdiv_core_binary _ _ _ _ _ _) as [[mz ez] lz];
    destruct (Py.is_finite _); try discriminate; now intros [= <-].
Qed.

Lemma set_status_fields (st : TestStatus) (r : TestResult) :
  name (set_status st r) = name r
  /\ duration_ms (set_status st r) = duration_ms r
  /\ timestamp (set_status st r) = timestamp r
  /\ log_messages (set_status st r) = log_messages r.
Proof. now destruct r. Qed.

Section MoreParsing.

Variable isoformat_now : nat -> string.

Local Abbreviation parse_status_message := (parse_status_message isoformat_now).
Local Abbreviation parse_rtt_line := (parse_rtt_line isoformat_now).
Local Abbreviation record_line := (record_line isoformat_now).
Local Abbreviation parse_lines := (parse_lines isoformat_now).

Implicit Types (m : RTTMonitor) (l line n : string).

(** The last step raises when [int] refuses a field of the summary
    marker for its length, or when [passed / total] is beyond the
    floats. *)
Lemma parse_summary_or_log_raises l m e :
  (parse_summary_or_log l m).1 = Raised e ->
  (exists g1 g2 g3 g,
     Re.search summary_pattern l = Some [g1; g2; g3]
     /\ In g [g1; g2; g3]
     /\ (Py.int_max_str_digits < Z.of_nat (String.length g))%Z
     /\ Py.int g = Raised e
     /\ class_of e = ValueError)
  \/ (exists g1 g2 g3 t p,
        Re.search summary_pattern l = Some [g1; g2; g3]
        /\ Py.int g1 = Returned t /\ Py.int g2 = Returned p
        /\ (0 < t)%Z
        /\ Py.true_divide p t = Raised e
        /\ class_of e = OverflowError).
Proof.
  unfold parse_summary_or_log.
  destruct (Re.search summary_pattern l) as [gs|] eqn:Hs.
  - destruct (summary_pattern_groups _ _ Hs)
      as (g1 & g2 & g3 & -> & [N1 D1] & [N2 D2] & [N3 D3]).
    unfold_M. cbn [fst snd].
    destruct (Py.int g1) as [t|e1] eqn:H1.
    + destruct (Py.int g2) as [p|e2] eqn:H2.
      * destruct (Py.int g3) as [f|e3] eqn:H3.
        -- cbn [fst snd].
           destruct (0 <? t)%Z eqn:Hlt; [|discriminate].
           apply Z.ltb_lt in Hlt.
           destruct (Py.true_divide p t) as [q|e'] eqn:Hq; [discriminate|].
           intros [= <-]. right. exists g1, g2, g3, t, p.
           split; [reflexivity|]. repeat (split; [assumption|]).
           now apply (true_divide_raises p t).
        -- intros [= <-]. left. exists g1, g2, g3, g3.
           split; [reflexivity|]. split; [simpl; auto|].
           split; [now apply (int_raises_long g3 e3)|].
           split; [assumption | now apply (int_raises g3)].
      * intros [= <-]. left. exists g1, g2, g3, g2.
        split; [reflexivity|]. split; [simpl; auto|].
        split; [now apply (int_raises_long g2 e2)|].
        split; [assumption | now apply (int_raises g2)].
    + intros [= <-]. left. exists g1, g2, g3, g1.
      split; [reflexivity|]. split; [simpl; auto|].
      split; [now apply (int_raises_long g1 e1)|].
      split; [assumption | now apply (int_raises g1)].
  - destruct (Re.search log_pattern _) as [[|? [|? [|? [|? ?]]]]|];
      unfold_M; discriminate.
Qed.

(** Parsing a line raises in three cases only.  The result marker names
    a registered test (one in the registry before the line, or one that
    the status marker of the line names) and its duration has more than
    4300 digits; or the summary grammar matched and one of its fields has
    more than 4300 digits: both are the [ValueError] of [int].  Or the
    summary grammar matched with a positive total and [passed / total] is
    beyond the floats, an [OverflowError].  There is no
    [ZeroDivisionError]. *)
Theorem parse_rtt_line_raises line m e :
  (parse_rtt_line line m).1 = Raised e ->
  (exists n r d,
     Re.search result_pattern (Str.strip line) = Some [n; r; d]
     /\ (is_Some (test_results m !! n)
         \/ exists st, status_event (Str.strip line) = Some (n, st))
     /\ (Py.int_max_str_digits < Z.of_nat (String.length d))%Z
     /\ Py.int d = Raised e
     /\ class_of e = ValueError)
  \/ (exists g1 g2 g3 g,
        Re.search summary_pattern (Str.strip line) = Some [g1; g2; g3]
        /\ In g [g1; g2; g3]
        /\ (Py.int_max_str_digits < Z.of_nat (String.length g))%Z
        /\ Py.int g = Raised e
        /\ class_of e = ValueError)
  \/ (exists g1 g2 g3 t p,
        Re.search summary_pattern (Str.strip line) = Some [g1; g2; g3]
        /\ Py.int g1 = Returned t /\ Py.int g2 = Returned p
        /\ (0 < t)%Z
        /\ Py.true_divide p t = Raised e
        /\ class_of e = OverflowError).
Proof.
  destruct (Str.is_empty (Str.strip line)) eqn:Hb.
  - rewrite parse_rtt_line_blank by assumption. discriminate.
  - destruct (parse_result_message_outcome (Str.strip line)
                (parse_status_message (Str.strip line)
                   (record_line (Str.strip line) m)).2)
      as [Hr | (e' & n & r & d & r0 & Hr & Hs & Hn & Hd)].
    + rewrite parse_rtt_line_result_returned by assumption.
      intros H. right. now apply parse_summary_or_log_raises in H.
    + rewrite (parse_rtt_line_result_raised isoformat_now line m e' Hb Hr).
      intros [= <-]. left. exists n, r, d.
      destruct (result_pattern_groups _ _ Hs)
        as (? & ? & ? & [= <- <- <-] & _ & Hne & Hdig).
      split; [assumption|]. split.
      * apply (parse_status_message_registered isoformat_now (Str.strip line)
                 (record_line (Str.strip line) m) n).
        rewrite Hn. eauto.
      * split; [now apply (int_raises_long d e')|].
        split; [assumption | now apply (int_raises d)].
Qed.

(** *** Only the entries that the markers of a line name are touched *)

Lemma parse_status_message_other l m k :
  (forall st, status_event l <> Some (k, st)) ->
  test_results (parse_status_message l m).2 !! k = test_results m !! k.
Proof.
  intros Hk. destruct (status_event l) as [[n st]|] eqn:He.
  - rewrite (parse_status_message_event _ _ _ _ _ He).
    assert (n <> k) as Hne by (intros ->; now apply (Hk st)).
    destruct (test_results m !! n); now rewrite lookup_insert_ne.
  - now rewrite parse_status_message_no_event.
Qed.

Lemma parse_result_message_other l m k :
  (forall r d, Re.search result_pattern l <> Some [k; r; d]) ->
  test_results (parse_result_message l m).2 !! k = test_results m !! k.
Proof.
  intros Hk. destruct (Re.search result_pattern l) as [gs|] eqn:H.
  - destruct (result_pattern_groups _ _ H) as (n & r & d & -> & _).
    rewrite (parse_result_message_test_results l m _ _ _ H).
    assert (n <> k) as Hne by (intros ->; now apply (Hk r d)).
    destruct (test_results m !! n); [now rewrite lookup_insert_ne | reflexivity].
  - now rewrite parse_result_message_no_match.
Qed.

(** A line leaves alone every entry of the registry that neither its
    status marker (with a known status) nor its result marker names. *)
Theorem parse_rtt_line_other_entries line m k :
  (forall st, status_event (Str.strip line) <> Some (k, st)) ->
  (forall r d, Re.search result_pattern (Str.strip line) <> Some [k; r; d]) ->
  test_results (parse_rtt_line line m).2 !! k = test_results m !! k.
Proof.
  intros Hs Hr. destruct (Str.is_empty (Str.strip line)) eqn:Hb.
  - now rewrite parse_rtt_line_blank.
  - rewrite parse_rtt_line_test_results by assumption.
    rewrite parse_result_message_other by assumption.
    now rewrite parse_status_message_other by assumption.
Qed.

(** What a status marker with a known status does to the entry it names,
    when no result marker of the same line names it too. *)
Lemma status_marker_sets_status line m n st :
  status_event (Str.strip line) = Some (n, st) ->
  (forall r d, Re.search result_pattern (Str.strip line) <> Some [n; r; d]) ->
  test_results (parse_rtt_line line m).2 !! n =
    Some match test_results m !! n with
         | Some r => set_status st r
         | None =>
             {| name := n; status := st; duration_ms := None;
                timestamp := isoformat_now (S (clock m));
                log_messages := [] |}
         end.
Proof.
  intros He Hr.
  rewrite parse_rtt_line_test_results
    by (eapply status_event_nonblank; eauto).
  rewrite parse_result_message_other by assumption.
  rewrite (parse_status_message_event _ _ _ _ _ He).
  cbn [record_line test_results clock].
  destruct (test_results m !! n); apply lookup_insert_eq.
Qed.


End MoreParsing.

(** ** Stripping *)

Lemma lstrip_head (s : string) :
  Str.lstrip s = ""
  \/ exists c t, Str.lstrip s = String c t /\ Str.is_space c = false.
Proof.
  induction s as [|c s IH]; simpl; [now left|].
  destruct (Str.is_space c) eqn:Hc; [assumption|]. right. eauto.
Qed.

Lemma rstrip_rstrip (s : string) : Str.rstrip (Str.rstrip s) = Str.rstrip s.
Proof.
  induction s as [|c s IH]; [reflexivity|]. simpl.
  destruct (Str.is_space c && Str.is_empty (Str.rstrip s)) eqn:E;
    [reflexivity|].
  simpl. now rewrite IH, E.
Qed.

(** [strip] is idempotent. *)
Lemma strip_strip (s : string) : Str.strip (Str.strip s) = Str.strip s.
Proof.
  unfold Str.strip.
  destruct (lstrip_head s) as [-> | (c & t & -> & Hc)]; [reflexivity|].
  simpl. rewrite Hc. simpl. rewrite Hc. simpl.
  now rewrite rstrip_rstrip, Hc.
Qed.

Lemma is_empty_false (s : string) : Str.is_empty s = false <-> s <> "".
Proof. destruct s; simpl; split; congruence. Qed.

(** ** Counting characters *)

Lemma count_char_append (a : ascii) (s t : string) :
  count_char a (s ++ t) = count_char a s + count_char a t.
Proof.
  induction s as [|c s IH]; [reflexivity|].
  rewrite append_cons. simpl. rewrite IH. lia.
Qed.



(** The result grammar needs three colons. *)
Lemma result_needs_three_colons (l : string) (gs : list string) :
  Re.search result_pattern l = Some gs -> 3 <= count_char ":" l.
Proof.
  intros H. apply search_sound in H as (pre & w & post & -> & Hd).
  simpl in Hd.
  destruct Hd as (w1 & w2 & g1 & g2 & -> & _ & [-> _] & Hd).
  destruct Hd as (w3 & w4 & g3 & g4 & -> & _ & _ & Hd).
  destruct Hd as (w5 & w6 & g5 & g6 & -> & _ & [-> _] & Hd).
  destruct Hd as (w7 & w8 & g7 & g8 & -> & _ & _ & Hd).
  destruct Hd as (w9 & w10 & g9 & g10 & -> & _ & [-> _] & _).
  rewrite !count_char_append. simpl. lia.
Qed.

Lemma value_is_token (st : TestStatus) :
  value st <> "" /\ Str.all Str.is_word (value st) = true
  /\ count_char ":" (value st) = 0.
Proof. destruct st; repeat split; try discriminate; reflexivity. Qed.

Lemma TestStatus_of_value_value (st : TestStatus) :
  TestStatus_of_value (value st) = Some st.
Proof. now destruct st. Qed.

(** [TestStatus(s.value)] is [s], and nothing else is read as [s]. *)
Theorem TestStatus_value_round_trip (st : TestStatus) (v : string) :
  TestStatus_of_value v = Some st <-> v = value st.
Proof.
  split.
  - unfold TestStatus_of_value.
    destruct (String.eqb_spec v "TEST_INIT") as [->|]; [now intros [= <-]|].
    destruct (String.eqb_spec v "TEST_RUNNING") as [->|]; [now intros [= <-]|].
    destruct (String.eqb_spec v "TEST_PASS") as [->|]; [now intros [= <-]|].
    destruct (String.eqb_spec v "TEST_FAIL") as [->|]; [now intros [= <-]|].
    destruct (String.eqb_spec v "TEST_COMPLETE") as [->|]; [now intros [= <-]|].
    discriminate.
  - intros ->. apply TestStatus_of_value_value.
Qed.

(** ** Invariants of a run of lines *)

Section Invariants.

Variable isoformat_now : nat -> string.

Local Abbreviation parse_status_message := (parse_status_message isoformat_now).
Local Abbreviation parse_rtt_line := (parse_rtt_line isoformat_now).
Local Abbreviation record_line := (record_line isoformat_now).
Local Abbreviation parse_lines := (parse_lines isoformat_now).

Implicit Types (m : RTTMonitor) (l line n : string).

(** A property of records that creation, a status update and a result
    update (with a duration that is not negative) all keep is an
    invariant of the registry. *)
Lemma parse_rtt_line_invariant (P : string -> TestResult -> Prop) :
  (forall n st ts,
     P n {| name := n; status := st; duration_ms := None; timestamp := ts;
            log_messages := [] |}) ->
  (forall n st r, P n r -> P n (set_status st r)) ->
  (forall n st z r,
     P n r -> (0 <= z)%Z -> P n (set_duration_ms z (set_status st r))) ->
  forall line m,
    (forall n r, test_results m !! n = Some r -> P n r) ->
    forall n r, test_results (parse_rtt_line line m).2 !! n = Some r -> P n r.
Proof.
  intros Hnew Hst Hres line m Hinv.
  destruct (Str.is_empty (Str.strip line)) eqn:Hb.
  { now rewrite parse_rtt_line_blank. }
  rewrite parse_rtt_line_test_results by assumption.
  set (m0 := record_line (Str.strip line) m).
  assert (forall n r, test_results m0 !! n = Some r -> P n r) as H0
    by exact Hinv.
  assert (forall n r,
            test_results (parse_status_message (Str.strip line) m0).2 !! n
            = Some r -> P n r) as H1.
  { intros n r. destruct (status_event (Str.strip line)) as [[n' st]|] eqn:He.
    - rewrite (parse_status_message_event _ _ _ _ _ He).
      destruct (test_results m0 !! n') as [r0|] eqn:E;
        (destruct (decide (n' = n)) as [->|Hne];
         [rewrite lookup_insert_eq; intros [= <-]; eauto
         |rewrite lookup_insert_ne by assumption; apply H0]).
    - rewrite parse_status_message_no_event by assumption. apply H0. }
  intros n r.
  destruct (Re.search result_pattern (Str.strip line)) as [gs|] eqn:Hs.
  - destruct (result_pattern_groups _ _ Hs)
      as (n' & res & d & -> & _ & _ & Hdig).
    rewrite (parse_result_message_test_results _ _ _ _ _ Hs).
    destruct (test_results _ !! n') as [r0|] eqn:E; [|apply H1].
    destruct (decide (n' = n)) as [->|Hne].
    + rewrite lookup_insert_eq. intros [= <-].
      destruct (Py.int d) as [z|e] eqn:Hz.
      * apply Hres; [eauto|]. exact (int_not_negative d z Hdig Hz).
      * apply Hst. eauto.
    + rewrite lookup_insert_ne by assumption. apply H1.
  - rewrite parse_result_message_no_match by assumption. apply H1.
Qed.

Lemma parse_lines_invariant (P : string -> TestResult -> Prop) :
  (forall n st ts,
     P n {| name := n; status := st; duration_ms := None; timestamp := ts;
            log_messages := [] |}) ->
  (forall n st r, P n r -> P n (set_status st r)) ->
  (forall n st z r,
     P n r -> (0 <= z)%Z -> P n (set_duration_ms z (set_status st r))) ->
  forall lines m,
    (forall n r, test_results m !! n = Some r -> P n r) ->
    forall n r, test_results (parse_lines lines m) !! n = Some r -> P n r.
Proof.
  intros Hnew Hst Hres lines.
  induction lines as [|line lines IH]; intros m Hinv; [exact Hinv|].
  apply (IH (parse_rtt_line line m).2).
  now apply parse_rtt_line_invariant.
Qed.

(** Every record sits in the registry under its own name: if that is so
    before a run of lines, it is so after it. *)
Theorem registry_keys_are_names lines m :
  (forall n r, test_results m !! n = Some r -> name r = n) ->
  forall n r, test_results (parse_lines lines m) !! n = Some r -> name r = n.
Proof.
  apply (parse_lines_invariant (fun n r => name r = n)); auto.
Qed.

(** No run of lines stores a negative duration. *)
Theorem durations_are_not_negative lines m :
  (forall n r z,
     test_results m !! n = Some r -> duration_ms r = Some z -> (0 <= z)%Z) ->
  forall n r z,
    test_results (parse_lines lines m) !! n = Some r ->
    duration_ms r = Some z -> (0 <= z)%Z.
Proof.
  intros H n r z Hn.
  revert z. revert n r Hn.
  apply (parse_lines_invariant
           (fun _ r => forall z, duration_ms r = Some z -> (0 <= z)%Z)).
  - intros n st ts z. discriminate.
  - intros n st r Hr z. apply Hr.
  - intros n st z r _ Hz z' [= <-]. assumption.
  - intros n r Hn z. now apply (H n r z).
Qed.

(** The raw log after a run of lines: the texts it had, then the
    stripped text of each line that is not blank, in the order of the
    lines. *)
Theorem parse_lines_raw_log lines m :
  List.map raw (log_buffer (parse_lines lines m)) =
    (List.map raw (log_buffer m)
       ++ List.filter (fun l => negb (Str.is_empty l))
            (List.map Str.strip lines))%list.
Proof.
  revert m. induction lines as [|line lines IH]; intros m.
  - simpl. now rewrite List.app_nil_r.
  - change (parse_lines (line :: lines) m)
      with (parse_lines lines (parse_rtt_line line m).2).
    rewrite IH. simpl.
    destruct (Str.is_empty (Str.strip line)) eqn:Hb; simpl.
    + now rewrite parse_rtt_line_blank.
    + rewrite parse_rtt_line_log_buffer by assumption.
      rewrite List.map_app. simpl. now rewrite <- List.app_assoc.
Qed.

(** The raw log never holds a blank text, nor one with white space at
    either end: if that is so before a run of lines, it is so after. *)
Theorem raw_log_texts_are_stripped lines m :
  Forall (fun e => raw e <> "" /\ Str.strip (raw e) = raw e) (log_buffer m) ->
  Forall (fun e => raw e <> "" /\ Str.strip (raw e) = raw e)
         (log_buffer (parse_lines lines m)).
Proof.
  revert m. induction lines as [|line lines IH]; intros m Hm; [exact Hm|].
  apply (IH (parse_rtt_line line m).2).
  destruct (Str.is_empty (Str.strip line)) eqn:Hb.
  - now rewrite parse_rtt_line_blank.
  - rewrite parse_rtt_line_log_buffer by assumption.
    apply Forall_app. split; [assumption|].
    constructor; [|constructor]. simpl.
    split; [now apply is_empty_false | apply strip_strip].
Qed.

End Invariants.

(** ** Well-formed marker lines, end to end *)



Section Markers.

Variable isoformat_now : nat -> string.

Local Abbreviation parse_status_message := (parse_status_message isoformat_now).
Local Abbreviation parse_rtt_line := (parse_rtt_line isoformat_now).
Local Abbreviation record_line := (record_line isoformat_now).

Implicit Types (m : RTTMonitor) (l line n : string).

(** A line whose stripped text is [STATUS:<value of st>:<n>], with a
    name [n] that has no colon and no line feed, makes [n] a test of
    status [st]: a new record, stamped after the line was logged, when
    [n] is new, and the old record with only the status replaced when
    [n] is known. *)
Theorem status_line_registers_test line m st n :
  Str.strip line = "STATUS:" ++ value st ++ ":" ++ n ->
  n <> "" -> Str.all Str.is_dot n = true -> count_char ":" n = 0 ->
  test_results (parse_rtt_line line m).2 !! n =
    Some match test_results m !! n with
         | Some r => set_status st r
         | None =>
             {| name := n; status := st; duration_ms := None;
                timestamp := isoformat_now (S (clock m));
                log_messages := [] |}
         end.
Proof.
  intros Hl Hn Hdot Hcolon.
  destruct (value_is_token st) as (Hv & Hw & Hc).
  apply status_marker_sets_status.
  - unfold status_event.
    rewrite Hl, (status_line_recognised (value st) n) by assumption.
    now rewrite TestStatus_of_value_value.
  - intros r d H. apply result_needs_three_colons in H.
    rewrite Hl, !count_char_append, Hc, Hcolon in H. simpl in H. lia.
Qed.



End Markers.

(** ** Sessions *)

Lemma parse_rtt_line_returns_summary
    (isoformat_now : nat -> string) (line : string) (m : RTTMonitor)
    (s : RunSummary) :
  (parse_rtt_line isoformat_now line m).1 = Returned (Some s) ->
  exists g1 g2 g3,
    Re.search summary_pattern (Str.strip line) = Some [g1; g2; g3]
    /\ Py.int g1 = Returned (total s)
    /\ Py.int g2 = Returned (passed s)
    /\ Py.int g3 = Returned (failed s).
Proof.
  destruct (Str.is_empty (Str.strip line)) eqn:Hb.
  - rewrite parse_rtt_line_blank by assumption. discriminate.
  - destruct (parse_result_message_outcome (Str.strip line)
                (parse_status_message isoformat_now (Str.strip line)
                   (record_line isoformat_now (Str.strip line) m)).2)
      as [Hr | (e & ? & ? & ? & ? & Hr & _)].
    + rewrite parse_rtt_line_result_returned by assumption.
      unfold parse_summary_or_log.
      destruct (Re.search summary_pattern (Str.strip line)) as [gs|] eqn:Hs.
      * destruct (summary_pattern_groups _ _ Hs) as (g1 & g2 & g3 & -> & _).
        unfold_M. cbn [fst snd].
        destruct (Py.int g1) as [t|] eqn:Ht; [|discriminate].
        destruct (Py.int g2) as [p|] eqn:Hp; [|discriminate].
        destruct (Py.int g3) as [f|] eqn:Hf; [|discriminate].
        cbn [fst snd].
        intros H. exists g1, g2, g3. split; [reflexivity|].
        destruct (0 <? t)%Z; [destruct (Py.true_divide p t)|];
          try discriminate; injection H as <-; auto.
      * destruct (Re.search log_pattern _) as [[|? [|? [|? [|? ?]]]]|];
          unfold_M; discriminate.
    + rewrite (parse_rtt_line_result_raised isoformat_now line m e Hb Hr).
      discriminate.
Qed.

(** A line without a summary marker returns [None] when its result step
    returns. *)
Lemma parse_rtt_line_no_summary
    (isoformat_now : nat -> string) (line : string) (m : RTTMonitor) :
  Re.search summary_pattern (Str.strip line) = None ->
  (forall n r d,
     Re.search result_pattern (Str.strip line) = Some [n; r; d] ->
     (Z.of_nat (String.length d) <= Py.int_max_str_digits)%Z
     \/ (test_results m !! n = None
         /\ forall st, status_event (Str.strip line) <> Some (n, st))) ->
  (parse_rtt_line isoformat_now line m).1 = Returned None.
Proof.
  intros Hs Hres. destruct (Str.is_empty (Str.strip line)) eqn:Hb.
  - now rewrite parse_rtt_line_blank.
  - rewrite parse_rtt_line_result_returned
      by (try assumption; now apply result_step_returns).
    unfold parse_summary_or_log. rewrite Hs.
    destruct (Re.search log_pattern _) as [[|? [|? [|? [|? ?]]]]|];
      reflexivity.
Qed.

Section Sessions.

Variable isoformat_now : nat -> string.

Implicit Types (w : Session) (ts : list turn) (sd : option RunSummary).

Ltac loop_step t :=
  cbn [monitor_loop];
  destruct (PyTime.float_lt_int (PyTime.float_sub (time_read t) _) _);
  [destruct (poll_result t);
   [|destruct (readline_result t) as [raw|?] eqn:Hread;
     [destruct (Str.is_empty raw);
      [|destruct (parse_rtt_line isoformat_now raw _)
          as [[res|?] m1] eqn:Hparse;
        [destruct (check_success_condition m1) as [[[|]|?] m2] eqn:Hcheck|]]|]]|].

Ltac loop_actions :=
  simpl; repeat (apply List.Forall_cons; [eauto|]);
  first [apply List.Forall_nil | assumption].

(** The loop asks the process only to be polled and read, sleeps in
    between, and leaves the attributes of the session alone. *)
Lemma monitor_loop_frame timeout start ts :
  forall sd w sd' w',
    monitor_loop isoformat_now timeout start ts sd w = Some (sd', w') ->
    device w' = device w /\ interface w' = interface w /\ speed w' = speed w
    /\ process w' = process w
    /\ exists body,
         actions w' = (actions w ++ body)%list
         /\ Forall (fun a => a = Poll \/ a = Readline \/ exists x, a = Sleep x)
                   body.
Proof.
  induction ts as [|t ts IH]; intros sd w sd' w' H; [discriminate|].
  revert H. loop_step t; intros H;
    first
      [ injection H as <- <-; cbn;
        do 4 (split; [reflexivity|]);
        eexists; split;
        [rewrite <- ?List.app_assoc;
         first [reflexivity | symmetry; apply List.app_nil_r]
        | loop_actions]
      | apply IH in H as (Hd & Hi & Hs & Hp & body & Ha & Hb); cbn in *;
        do 4 (split; [assumption|]);
        eexists; split;
        [rewrite Ha, <- ?List.app_assoc; reflexivity | loop_actions] ].
Qed.

(** Turns behind one whose time reading is past the deadline play no
    part, and the loop is left at that turn at the latest. *)
Lemma monitor_loop_deadline timeout start pre t post :
  PyTime.float_lt_int (PyTime.float_sub (time_read t) start) timeout = false ->
  forall sd w,
    is_Some (monitor_loop isoformat_now timeout start (pre ++ [t]) sd w)
    /\ monitor_loop isoformat_now timeout start (pre ++ t :: post) sd w
       = monitor_loop isoformat_now timeout start (pre ++ [t]) sd w.
Proof.
  intros Ht. induction pre as [|a pre IH]; intros sd w.
  - cbn [app monitor_loop]. rewrite Ht. eauto.
  - rewrite <- !List.app_comm_cons.
    loop_step a; first [apply IH | split; [eauto | reflexivity]].
Qed.

(** A session in which some time reading is past the deadline ends, and
    nothing that the environment holds behind that reading matters. *)
Theorem monitor_until_success_deadline env timeout w pre t post :
  turns env = (pre ++ t :: post)%list ->
  PyTime.float_lt_int (PyTime.float_sub (time_read t) (start_time env)) timeout
  = false ->
  is_Some (monitor_until_success isoformat_now env timeout w)
  /\ monitor_until_success isoformat_now env timeout w
     = monitor_until_success isoformat_now
         {| popen := popen env; start_time := start_time env;
            turns := (pre ++ [t])%list;
            exits_in_time := exits_in_time env |}
         timeout w.
Proof.
  intros Hturns Ht. unfold monitor_until_success.
  cbn [popen start_time turns exits_in_time]. rewrite Hturns.
  destruct (start_rtt_viewer (popen env) w) as [[|] w1]; [|eauto].
  destruct (monitor_loop_deadline timeout (start_time env) pre t post Ht None
              (say ("[RTT_MONITOR] Monitoring for " ++ Py.str timeout
                      ++ "s or until success condition...") w1))
    as [[[sd' w'] Hsome] ->].
  rewrite Hsome. eauto.
Qed.

(** When the client cannot be started the session returns [False] at
    once: one line of diagnostics, and nothing else is done, neither to
    the monitor nor to a process. *)
Theorem failed_start_returns_false env timeout w :
  popen env <> Spawned ->
  exists text,
    monitor_until_success isoformat_now env timeout w
    = Some (ReturnFalse, say text (act (Popen (viewer_command w)) w)).
Proof.
  intros H. unfold monitor_until_success, start_rtt_viewer.
  destruct (popen env); [congruence| |]; eauto.
Qed.

(** When the client was started, a session that ends returns
    [summary_data] and has torn the process down just once, as its last
    dealings with it: [terminate], [wait(timeout=5)], and [kill] when the
    wait ran out.  Before that the process was only polled and read. *)
Theorem session_tears_down_once env timeout w ret w' :
  popen env = Spawned ->
  monitor_until_success isoformat_now env timeout w = Some (ret, w') ->
  exists sd body,
    ret = ReturnSummary sd
    /\ actions w' =
         (actions w ++ [Popen (viewer_command w)] ++ body
            ++ [Terminate; Wait 5]
            ++ (if exits_in_time env then [] else [Kill]))%list
    /\ Forall (fun a => a = Poll \/ a = Readline \/ exists x, a = Sleep x) body.
Proof.
  intros Hp. unfold monitor_until_success, start_rtt_viewer. rewrite Hp.
  destruct (monitor_loop _ _ _ _ _ _) as [[sd w1]|] eqn:Hloop; [|discriminate].
  intros [= <- <-].
  apply monitor_loop_frame in Hloop as (_ & _ & _ & Hproc & body & Ha & Hb).
  cbn in Hproc, Ha. exists sd, body. split; [reflexivity|].
  split; [|assumption].
  unfold stop_monitoring. rewrite Hproc.
  destruct (exits_in_time env); cbn; rewrite Ha, <- !List.app_assoc;
    reflexivity.
Qed.

(** A summary that a session returns was read from the process: some
    line that [readline] gave matches the summary grammar, with the three
    numbers of the returned summary. *)
Theorem returned_summary_was_read env timeout w s w' :
  monitor_until_success isoformat_now env timeout w
  = Some (ReturnSummary (Some s), w') ->
  exists t raw g1 g2 g3,
    In t (turns env)
    /\ readline_result t = Returned raw
    /\ Re.search summary_pattern (Str.strip raw) = Some [g1; g2; g3]
    /\ Py.int g1 = Returned (total s)
    /\ Py.int g2 = Returned (passed s)
    /\ Py.int g3 = Returned (failed s).
Proof.
  unfold monitor_until_success.
  destruct (start_rtt_viewer (popen env) w) as [[|] w1]; [|discriminate].
  destruct (monitor_loop _ _ _ _ _ _) as [[sd w2]|] eqn:Hloop; [|discriminate].
  intros [= -> <-].
  assert (forall ts sd0 w0 w3,
            monitor_loop isoformat_now timeout (start_time env) ts sd0 w0
            = Some (Some s, w3) ->
            sd0 = Some s
            \/ exists t raw m,
                 In t ts /\ readline_result t = Returned raw
                 /\ (parse_rtt_line isoformat_now raw m).1 = Returned (Some s))
    as Hgen.
  { induction ts as [|t ts IH]; intros sd0 w0 w3 H; [discriminate|].
    assert (forall (res : option RunSummary) raw0,
              readline_result t = Returned raw0 ->
              (parse_rtt_line isoformat_now raw0
                 (monitor (act Readline (act Poll w0)))).1 = Returned res ->
              match res with Some s0 => Some s0 | None => sd0 end = Some s ->
              sd0 = Some s
              \/ exists t0 raw1 m,
                   In t0 (t :: ts) /\ readline_result t0 = Returned raw1
                   /\ (parse_rtt_line isoformat_now raw1 m).1
                      = Returned (Some s)) as Hres.
    { intros [s0|] raw0 Hr Hp Hx; [|now left].
      injection Hx as ->. right.
      exists t, raw0, (monitor (act Readline (act Poll w0))).
      split; [now left|]. split; assumption. }
    revert H. loop_step t; intros H;
      try (injection H as Hx _; first [now left | eapply Hres; eauto];
           now rewrite Hparse);
      (apply IH in H as [Hx | (t' & raw' & m' & Hin & Hr & Hp)];
       [first [now left | eapply Hres; eauto; now rewrite Hparse]
       |right; exists t', raw', m'; repeat split;
        [now right|assumption|assumption]]). }
  destruct (Hgen _ _ _ _ Hloop) as [H | (t & raw & m & Hin & Hr & Hp)];
    [discriminate|].
  destruct (parse_rtt_line_returns_summary _ _ _ _ Hp)
    as (g1 & g2 & g3 & Hs & H1 & H2 & H3).
  exists t, raw, g1, g2, g3. auto 10.
Qed.

Lemma parse_rtt_line_empty_registry line m :
  status_event (Str.strip line) = None ->
  test_results m = ∅ ->
  test_results (parse_rtt_line isoformat_now line m).2 = ∅.
Proof.
  intros He Hm. destruct (Str.is_empty (Str.strip line)) eqn:Hb.
  - now rewrite parse_rtt_line_blank.
  - rewrite parse_rtt_line_test_results by assumption.
    rewrite parse_result_message_unknown.
    + now rewrite parse_status_message_no_event.
    + intros n r d _. rewrite parse_status_message_no_event by assumption.
      cbn [record_line test_results]. now rewrite Hm.
Qed.

(** On a monitor that has no test yet, the first line that is read and
    carries neither a status marker with a known status nor a summary
    marker ends the session: the evaluator finds the all-pass rule
    satisfied by the empty registry.  The line is read, success is
    announced, the process is torn down; no later turn is looked at. *)
Theorem fresh_session_stops_at_first_line env timeout w t rest raw :
  popen env = Spawned ->
  turns env = t :: rest ->
  test_results (monitor w) = ∅ ->
  PyTime.float_lt_int (PyTime.float_sub (time_read t) (start_time env)) timeout
  = true ->
  poll_result t = None ->
  readline_result t = Returned raw ->
  raw <> "" ->
  status_event (Str.strip raw) = None ->
  Re.search summary_pattern (Str.strip raw) = None ->
  exists w',
    monitor_until_success isoformat_now env timeout w
    = Some (ReturnSummary None, w')
    /\ test_results (monitor w') = ∅
    /\ actions w' =
         (actions w
            ++ [Popen (viewer_command w); Poll; Readline; Sleep (Py.Int 1);
                Terminate; Wait 5]
            ++ (if exits_in_time env then [] else [Kill]))%list
    /\ exists out,
         stdout (monitor w') =
           (out ++ ["[RTT_MONITOR] Success condition met!";
                    "[RTT_MONITOR] RTT monitoring stopped"])%list.
Proof.
  intros Hp Hturns Hreg Htime Hpoll Hread Hraw He Hs.
  unfold monitor_until_success, start_rtt_viewer. rewrite Hp, Hturns.
  cbn [monitor_loop]. rewrite Htime, Hpoll, Hread.
  apply is_empty_false in Hraw. rewrite Hraw.
  match goal with
  | |- context [parse_rtt_line isoformat_now raw ?m0] =>
      assert (test_results m0 = ∅) as Hreg0 by exact Hreg;
      assert ((parse_rtt_line isoformat_now raw m0).1 = Returned None)
        as Hret
        by (apply parse_rtt_line_no_summary; [assumption|];
            intros n r d _; right; split;
            [rewrite Hreg0; apply lookup_empty | rewrite He; discriminate]);
      pose proof (parse_rtt_line_empty_registry raw m0 He Hreg0) as Hempty;
      destruct (parse_rtt_line isoformat_now raw m0) as [o m1]
  end.
  cbn [fst snd] in Hret, Hempty. subst o.
  rewrite check_success_condition_eq, Hempty.
  unfold values. rewrite map_to_list_empty. cbn [fmap list_fmap existsb forallb orb].
  eexists. split; [reflexivity|].
  unfold stop_monitoring. cbn [process act say with_monitor with_process].
  destruct (exits_in_time env); cbn.
  - split; [assumption|]. split; [now rewrite <- !List.app_assoc|].
    eexists. rewrite <- List.app_assoc. reflexivity.
  - split; [assumption|]. split; [now rewrite <- !List.app_assoc|].
    eexists. rewrite <- List.app_assoc. reflexivity.
Qed.

Lemma monitor_loop_keeps_tests timeout start ts n :
  forall sd w sd' w' r,
    monitor_loop isoformat_now timeout start ts sd w = Some (sd', w') ->
    test_results (monitor w) !! n = Some r ->
    exists r',
      test_results (monitor w') !! n = Some r'
      /\ name r' = name r /\ timestamp r' = timestamp r.
Proof.
  induction ts as [|t ts IH]; intros sd w sd' w' r H Hn; [discriminate|].
  revert H. loop_step t; intros H;
    try (rewrite check_success_condition_eq in Hcheck;
         injection Hcheck as _ <-);
    try (pose proof (parse_rtt_line_persist isoformat_now raw
                       (monitor (act Readline (act Poll w))) n r Hn)
           as (r1 & H1 & N1 & T1);
         rewrite Hparse in H1; cbn [snd] in H1);
    first
      [ injection H as _ <-; cbn; eauto; fail
      | injection H as _ <-; cbn; exists r1; auto; fail
      | exact (IH _ _ _ _ r H Hn)
      | destruct (IH _ _ _ _ r1 H H1) as (r2 & H2 & N2 & T2);
        exists r2; split; [assumption|]; split; congruence ].
Qed.

(** A session never loses a test: a record that is in the registry when
    the session starts is there when it ends, under the same name and
    with the same creation time. *)
Theorem session_keeps_tests env timeout w ret w' n r :
  monitor_until_success isoformat_now env timeout w = Some (ret, w') ->
  test_results (monitor w) !! n = Some r ->
  exists r',
    test_results (monitor w') !! n = Some r'
    /\ name r' = name r /\ timestamp r' = timestamp r.
Proof.
  unfold monitor_until_success, start_rtt_viewer. intros H Hn.
  destruct (popen env).
  - destruct (monitor_loop _ _ _ _ _ _) as [[sd w1]|] eqn:Hloop;
      [|discriminate].
    injection H as _ <-.
    apply (monitor_loop_keeps_tests _ _ _ n _ _ _ _ r) in Hloop;
      [|exact Hn].
    destruct Hloop as (r' & H' & N' & T'). exists r'.
    unfold stop_monitoring. destruct (process w1); [|auto].
    destruct (exits_in_time env); cbn; auto.
  - injection H as _ <-. cbn. eauto.
  - injection H as _ <-. cbn. eauto.
Qed.

End Sessions.

(** ** More on the report *)

(** When the file is written, the document of [save_results] lists the
    tests of the registry and no others, each with the fields of its
    record and with a status text that [TestStatus] reads back as the
    status of the record; the raw log is copied, and the monitor is left
    as it was but for one printed line.  When opening or writing the file
    raises, [save_results] raises the same, prints nothing and leaves the
    monitor as it was. *)
Theorem save_results_entries (written : outcome unit) (filename : string)
    (m : RTTMonitor) :
  match written with
  | Returned _ =>
      exists report,
        save_results written filename m
        = (Returned report,
           (print ("[RTT_MONITOR] Results saved to " ++ filename) m).2)
        /\ report_log_buffer report = log_buffer m
        /\ (forall n, report_test_results report !! n = None
                      <-> test_results m !! n = None)
        /\ (forall n e,
              report_test_results report !! n = Some e ->
              exists r,
                test_results m !! n = Some r
                /\ entry_name e = name r
                /\ TestStatus_of_value (entry_status e) = Some (status r)
                /\ entry_duration_ms e = duration_ms r
                /\ entry_test_timestamp e = timestamp r
                /\ entry_log_messages e = log_messages r)
  | Raised e => save_results written filename m = (Raised e, m)
  end.
Proof.
  destruct written as [[]|e]; [|reflexivity].
  unfold save_results. unfold_M. cbn [fst snd].
  eexists. split; [reflexivity|]. cbn [report_log_buffer report_test_results].
  split; [reflexivity|]. split.
  - intros n. rewrite lookup_fmap. now destruct (test_results m !! n).
  - intros n e. rewrite lookup_fmap.
    destruct (test_results m !! n) as [r|]; [|discriminate].
    intros [= <-]. exists r. cbn.
    repeat split. apply TestStatus_of_value_value.
Qed.

(** ** The further properties at concrete inputs *)

Lemma parse_rtt_line_raises_witness :
  let line := "SUMMARY:1:" ++ one_and_zeros 400 ++ ":0" in
  let e := mkExn OverflowError "integer division result too large for a float" in
  (parse_rtt_line test_clock line init).1 = Raised e
  /\ ((exists n r d,
         Re.search result_pattern (Str.strip line) = Some [n; r; d]
         /\ (is_Some (test_results init !! n)
             \/ exists st, status_event (Str.strip line) = Some (n, st))
         /\ (Py.int_max_str_digits < Z.of_nat (String.length d))%Z
         /\ Py.int d = Raised e
         /\ class_of e = ValueError)
      \/ (exists g1 g2 g3 g,
            Re.search summary_pattern (Str.strip line) = Some [g1; g2; g3]
            /\ In g [g1; g2; g3]
            /\ (Py.int_max_str_digits < Z.of_nat (String.length g))%Z
            /\ Py.int g = Raised e
            /\ class_of e = ValueError)
      \/ (exists g1 g2 g3 t p,
            Re.search summary_pattern (Str.strip line) = Some [g1; g2; g3]
            /\ Py.int g1 = Returned t /\ Py.int g2 = Returned p
            /\ (0 < t)%Z
            /\ Py.true_divide p t = Raised e
            /\ class_of e = OverflowError)).
Proof.
  split; [vm_compute; reflexivity|].
  apply (parse_rtt_line_raises test_clock
           ("SUMMARY:1:" ++ one_and_zeros 400 ++ ":0") init).
  vm_compute. reflexivity.
Defined.

Lemma parse_rtt_line_other_entries_witness :
  let m := (parse_rtt_line test_clock "STATUS:TEST_INIT:t1" init).2 in
  status_event (Str.strip "STATUS:TEST_PASS:t2") = Some ("t2", PASS)
  /\ Re.search result_pattern (Str.strip "STATUS:TEST_PASS:t2") = None
  /\ test_results (parse_rtt_line test_clock "STATUS:TEST_PASS:t2" m).2 !! "t1"
     = test_results m !! "t1".
Proof.
  split; [reflexivity|]. split; [reflexivity|].
  apply (parse_rtt_line_other_entries test_clock "STATUS:TEST_PASS:t2"
           (parse_rtt_line test_clock "STATUS:TEST_INIT:t1" init).2 "t1").
  - intros st H. vm_compute in H. discriminate H.
  - intros r d H. vm_compute in H. discriminate H.
Defined.

Lemma status_line_registers_test_witness :
  Str.strip "  STATUS:TEST_RUNNING:uart_loopback  "
  = "STATUS:" ++ value RUNNING ++ ":" ++ "uart_loopback"
  /\ test_results
       (parse_rtt_line test_clock "  STATUS:TEST_RUNNING:uart_loopback  " init).2
     !! "uart_loopback"
     = Some {| name := "uart_loopback"; status := RUNNING; duration_ms := None;
               timestamp := test_clock 1; log_messages := [] |}.
Proof.
  split; [reflexivity|].
  apply (status_line_registers_test test_clock
           "  STATUS:TEST_RUNNING:uart_loopback  " init RUNNING "uart_loopback");
    [reflexivity | discriminate | reflexivity | reflexivity].
Defined.



Lemma registry_keys_are_names_witness :
  let lines := ["STATUS:TEST_INIT:t1"; "RESULT:t1:PASS:5"] in
  let r := {| name := "t1"; status := PASS; duration_ms := Some 5%Z;
              timestamp := "T1"; log_messages := [] |} in
  test_results (parse_lines test_clock lines init) !! "t1" = Some r
  /\ name r = "t1".
Proof.
  split; [vm_compute; reflexivity|].
  apply (registry_keys_are_names test_clock
           ["STATUS:TEST_INIT:t1"; "RESULT:t1:PASS:5"] init).
  - intros n r H. cbn [init test_results] in H.
    rewrite lookup_empty in H. discriminate H.
  - vm_compute. reflexivity.
Defined.

Lemma durations_are_not_negative_witness :
  let lines := ["STATUS:TEST_INIT:t1"; "RESULT:t1:PASS:5"] in
  let r := {| name := "t1"; status := PASS; duration_ms := Some 5%Z;
              timestamp := "T1"; log_messages := [] |} in
  test_results (parse_lines test_clock lines init) !! "t1" = Some r
  /\ (0 <= 5)%Z.
Proof.
  split; [vm_compute; reflexivity|].
  apply (durations_are_not_negative test_clock
           ["STATUS:TEST_INIT:t1"; "RESULT:t1:PASS:5"] init
           ltac:(intros n r z H; cbn [init test_results] in H;
                 rewrite lookup_empty in H; discriminate H)
           "t1"
           {| name := "t1"; status := PASS; duration_ms := Some 5%Z;
              timestamp := "T1"; log_messages := [] |}).
  - vm_compute. reflexivity.
  - reflexivity.
Defined.

Lemma raw_log_texts_are_stripped_witness :
  Forall (fun e => raw e <> "" /\ Str.strip (raw e) = raw e)
         (log_buffer
            (parse_lines test_clock ["  boot  "; "   "; "STATUS:TEST_INIT:t1 "]
               init)).
Proof.
  apply (raw_log_texts_are_stripped test_clock
           ["  boot  "; "   "; "STATUS:TEST_INIT:t1 "] init).
  apply List.Forall_nil.
Defined.

Lemma monitor_until_success_deadline_witness :
  let env := example_env [reading 1 ""; reading 61 "late"; reading 2 "never"] in
  turns env = ([reading 1 ""] ++ reading 61 "late" :: [reading 2 "never"])%list
  /\ PyTime.float_lt_int
       (PyTime.float_sub (time_read (reading 61 "late")) (start_time env)) 60
     = false
  /\ is_Some (monitor_until_success test_clock env 60 example_session)
  /\ monitor_until_success test_clock env 60 example_session
     = monitor_until_success test_clock
         {| popen := popen env; start_time := start_time env;
            turns := ([reading 1 ""] ++ [reading 61 "late"])%list;
            exits_in_time := exits_in_time env |}
         60 example_session.
Proof.
  split; [reflexivity|]. split; [reflexivity|].
  apply (monitor_until_success_deadline test_clock
           (example_env [reading 1 ""; reading 61 "late"; reading 2 "never"])
           60 example_session [reading 1 ""] (reading 61 "late")
           [reading 2 "never"]); reflexivity.
Defined.

Lemma failed_start_returns_false_witness :
  let env := {| popen := SpawnFileNotFound; start_time := Py.float_of_int 0;
                turns := [reading 1 "STATUS:TEST_PASS:t1"];
                exits_in_time := true |} in
  popen env <> Spawned
  /\ exists text,
       monitor_until_success test_clock env 60 example_session
       = Some (ReturnFalse,
               say text
                 (act (Popen (viewer_command example_session)) example_session)).
Proof.
  split; [discriminate|].
  apply (failed_start_returns_false test_clock
           {| popen := SpawnFileNotFound; start_time := Py.float_of_int 0;
              turns := [reading 1 "STATUS:TEST_PASS:t1"];
              exits_in_time := true |} 60 example_session).
  discriminate.
Defined.

Lemma session_tears_down_once_witness :
  let env := {| popen := Spawned; start_time := Py.float_of_int 0;
                turns := [reading 1 ""; reading 61 ""];
                exits_in_time := false |} in
  exists ret w',
    monitor_until_success test_clock env 60 example_session = Some (ret, w')
    /\ exists sd body,
         ret = ReturnSummary sd
         /\ actions w' =
              (actions example_session
                 ++ [Popen (viewer_command example_session)] ++ body
                 ++ [Terminate; Wait 5]
                 ++ (if exits_in_time env then [] else [Kill]))%list
         /\ Forall (fun a => a = Poll \/ a = Readline \/ exists x, a = Sleep x)
                   body.
Proof.
  eexists _, _. split; [reflexivity|].
  apply (session_tears_down_once test_clock
           {| popen := Spawned; start_time := Py.float_of_int 0;
              turns := [reading 1 ""; reading 61 ""];
              exits_in_time := false |} 60 example_session);
    reflexivity.
Defined.

Lemma returned_summary_was_read_witness :
  let env := example_env [reading 1 "SUMMARY:1:1:0"; reading 2 "later"] in
  let s := {| total := 1; passed := 1; failed := 0;
              success_rate := Py.Float (Py.float_of_int 100) |} in
  exists w',
    monitor_until_success test_clock env 60 example_session
    = Some (ReturnSummary (Some s), w')
    /\ exists t raw g1 g2 g3,
         In t (turns env)
         /\ readline_result t = Returned raw
         /\ Re.search summary_pattern (Str.strip raw) = Some [g1; g2; g3]
         /\ Py.int g1 = Returned (total s)
         /\ Py.int g2 = Returned (passed s)
         /\ Py.int g3 = Returned (failed s).
Proof.
  eexists. split; [vm_compute; reflexivity|].
  eapply (returned_summary_was_read test_clock
            (example_env [reading 1 "SUMMARY:1:1:0"; reading 2 "later"])
            60 example_session).
  vm_compute. reflexivity.
Defined.

Lemma fresh_session_stops_at_first_line_witness :
  let env := example_env [reading 1 "SEGGER J-Link RTT boot"; reading 2 "STATUS:TEST_INIT:t1"] in
  status_event (Str.strip "SEGGER J-Link RTT boot") = None
  /\ Re.search summary_pattern (Str.strip "SEGGER J-Link RTT boot") = None
  /\ exists w',
       monitor_until_success test_clock env 60 example_session
       = Some (ReturnSummary None, w')
       /\ test_results (monitor w') = ∅
       /\ actions w' =
            (actions example_session
               ++ [Popen (viewer_command example_session); Poll; Readline;
                   Sleep (Py.Int 1); Terminate; Wait 5]
               ++ (if exits_in_time env then [] else [Kill]))%list
       /\ exists out,
            stdout (monitor w') =
              (out ++ ["[RTT_MONITOR] Success condition met!";
                       "[RTT_MONITOR] RTT monitoring stopped"])%list.
Proof.
  split; [reflexivity|]. split; [reflexivity|].
  apply (fresh_session_stops_at_first_line test_clock
           (example_env [reading 1 "SEGGER J-Link RTT boot";
                         reading 2 "STATUS:TEST_INIT:t1"])
           60 example_session (reading 1 "SEGGER J-Link RTT boot")
           [reading 2 "STATUS:TEST_INIT:t1"] "SEGGER J-Link RTT boot");
    first [reflexivity | discriminate].
Defined.

Lemma session_keeps_tests_witness :
  let w := with_monitor
             (parse_rtt_line test_clock "STATUS:TEST_RUNNING:t1" init).2
             example_session in
  let env := example_env [reading 1 "STATUS:TEST_FAIL:t1"; reading 61 ""] in
  let r := {| name := "t1"; status := RUNNING; duration_ms := None;
              timestamp := "T1"; log_messages := [] |} in
  test_results (monitor w) !! "t1" = Some r
  /\ exists ret w',
       monitor_until_success test_clock env 60 w = Some (ret, w')
       /\ exists r',
            test_results (monitor w') !! "t1" = Some r'
            /\ name r' = name r /\ timestamp r' = timestamp r.
Proof.
  split; [vm_compute; reflexivity|].
  assert (exists ret w',
            monitor_until_success test_clock
              (example_env [reading 1 "STATUS:TEST_FAIL:t1"; reading 61 ""]) 60
              (with_monitor
                 (parse_rtt_line test_clock "STATUS:TEST_RUNNING:t1" init).2
                 example_session)
            = Some (ret, w')) as (ret & w' & H).
  { vm_compute. eexists _, _. reflexivity. }
  exists ret, w'. split; [exact H|].
  apply (session_keeps_tests test_clock _ _ _ _ _ _ _ H).
  vm_compute. reflexivity.
Defined.

Lemma save_results_entries_witness :
  let m := parse_lines test_clock
             ["STATUS:TEST_INIT:t1"; "RESULT:t1:FAIL:12"] init in
  exists report,
    save_results (Returned tt) "test_results.json" m
    = (Returned report,
       (print ("[RTT_MONITOR] Results saved to " ++ "test_results.json") m).2)
    /\ report_log_buffer report = log_buffer m
    /\ (forall n, report_test_results report !! n = None
                  <-> test_results m !! n = None)
    /\ (forall n e,
          report_test_results report !! n = Some e ->
          exists r,
            test_results m !! n = Some r
            /\ entry_name e = name r
            /\ TestStatus_of_value (entry_status e) = Some (status r)
            /\ entry_duration_ms e = duration_ms r
            /\ entry_test_timestamp e = timestamp r
            /\ entry_log_messages e = log_messages r).
Proof.
  exact (save_results_entries (Returned tt) "test_results.json"
           (parse_lines test_clock
              ["STATUS:TEST_INIT:t1"; "RESULT:t1:FAIL:12"] init)).
Defined.
